(** * Poket app: task list and expense form handlers

    A shallow embedding of the event handlers and derived views of
    [HomeScreen] (task list) and [NewExpenseScreen] (expense form).

    - The React component state is a record; a handler is a computation in
      a small state / exception / trace monad ([Async.M]).
    - Every call that leaves the component (the HTTP client [api], the
      notification service, [Alert], [console], [navigation]) is recorded
      as an event of the trace, in program order; [setTasks] is recorded
      too, so that its position relative to the remote call can be stated.
    - The outcome of an awaited promise is an input of the handler
      ([promise]): the remote service and the notification service are not
      part of these files.
    - The JavaScript built-ins used by the expense form ([trim], [isNaN],
      [parseFloat], [parseInt], [replace], [split], [indexOf], the [Date]
      constructor and getters) are modelled in module [JS]. *)

From Stdlib Require Import List String Ascii ZArith NArith Bool Lia Permutation.
From Stdlib Require Import Decimal DecimalString DecimalPos DecimalN.
Import ListNotations.

#[local] Open Scope string_scope.
#[local] Open Scope list_scope.

(* ===================================================================== *)
(** * JavaScript built-ins *)
(* ===================================================================== *)

Module JS.

(** A string is a sequence of code units; the model covers code units
    0..255.  The white space of [trim] and of the numeric conversions in
    that range: TAB, LF, VT, FF, CR, SPACE and NBSP. *)
Definition is_ws (c : ascii) : bool :=
  let n := nat_of_ascii c in
  ((9 <=? n) && (n <=? 13) || (n =? 32) || (n =? 160))%nat.

Definition is_digit (c : ascii) : bool :=
  let n := nat_of_ascii c in ((48 <=? n) && (n <=? 57))%nat.

Definition is_hex_digit (c : ascii) : bool :=
  let n := nat_of_ascii c in
  (is_digit c || (65 <=? n) && (n <=? 70) || (97 <=? n) && (n <=? 102))%nat.

(** Truthiness of a string: only the empty string is falsy. *)
Definition truthy (s : string) : bool :=
  match s with EmptyString => false | String _ _ => true end.

Fixpoint trimStart (s : string) : string :=
  match s with
  | EmptyString => EmptyString
  | String c s' => if is_ws c then trimStart s' else s
  end.

Fixpoint trimEnd (s : string) : string :=
  match s with
  | EmptyString => EmptyString
  | String c s' =>
      match trimEnd s' with
      | EmptyString => if is_ws c then EmptyString else String c EmptyString
      | r => String c r
      end
  end.

(** [String.prototype.trim] *)
Definition trim (s : string) : string := trimEnd (trimStart s).

(** Longest prefix of [s] whose characters satisfy [p], and the rest. *)
Fixpoint span (p : ascii -> bool) (s : string) : string * string :=
  match s with
  | EmptyString => (EmptyString, EmptyString)
  | String c s' =>
      if p c then let '(a, b) := span p s' in (String c a, b)
      else (EmptyString, s)
  end.

Fixpoint all_chars (p : ascii -> bool) (s : string) : bool :=
  match s with
  | EmptyString => true
  | String c s' => p c && all_chars p s'
  end.

Fixpoint drop (n : nat) (s : string) : string :=
  match n, s with
  | O, _ => s
  | S n', String _ s' => drop n' s'
  | S _, EmptyString => EmptyString
  end.

(** ** Numbers

    A Number is kept as an exact decimal: [Finite neg m e] is
    [(-1)^neg * m * 10^e].  Rounding to a double is not modelled, so a
    literal such as 1e999 stays finite here. *)
Inductive number : Type :=
| NaN
| Infinity (neg : bool)
| Finite (neg : bool) (m : N) (e : Z).

Definition of_Z (z : Z) : number := Finite (z <? 0)%Z (Z.abs_N z) 0.

(** Value of a run of decimal digits (0 on anything else). *)
Definition digits_val (ds : string) : N :=
  match NilEmpty.uint_of_string ds with
  | Some u => N.of_uint u
  | None => 0%N
  end.

Definition hex_digit_val (c : ascii) : N :=
  let n := N_of_ascii c in
  if is_digit c then (n - 48)%N
  else if (n <? 97)%N then (n - 55)%N else (n - 87)%N.

Fixpoint radix_val (radix : N) (acc : N) (s : string) : N :=
  match s with
  | EmptyString => acc
  | String c s' => radix_val radix (acc * radix + hex_digit_val c)%N s'
  end.

(** Optional sign of StrDecimalLiteral. *)
Definition read_sign (s : string) : bool * string :=
  match s with
  | String c r =>
      if Ascii.eqb c "+" then (false, r)
      else if Ascii.eqb c "-" then (true, r)
      else (false, s)
  | EmptyString => (false, s)
  end.

(** ExponentPart (optional): [e] or [E], an optional sign, at least one
    digit.  Returns the exponent and what follows it. *)
Definition read_exponent (s : string) : Z * string :=
  match s with
  | String c s1 =>
      if (Ascii.eqb c "e" || Ascii.eqb c "E")%bool then
        let '(neg, s2) := read_sign s1 in
        let '(ds, rest) := span is_digit s2 in
        if truthy ds
        then ((if neg then - Z.of_N (digits_val ds) else Z.of_N (digits_val ds))%Z, rest)
        else (0%Z, s)
      else (0%Z, s)
  | EmptyString => (0%Z, s)
  end.

(** The longest StrUnsignedDecimalLiteral at the start of [s] (the
    caller has read the sign), with the rest of the string. *)
Definition read_unsigned_decimal (neg : bool) (s : string) : option (number * string) :=
  if prefix "Infinity" s then Some (Infinity neg, drop 8 s)
  else
    let '(ip, r1) := span is_digit s in
    let integer_only :=
      if truthy ip then
        let '(e, r4) := read_exponent r1 in
        Some (Finite neg (digits_val ip) e, r4)
      else None in
    match r1 with
    | String c r2 =>
        if Ascii.eqb c "." then
          let '(fp, r3) := span is_digit r2 in
          if truthy ip || truthy fp then
            let '(e, r4) := read_exponent r3 in
            Some (Finite neg (digits_val (ip ++ fp)) (e - Z.of_nat (length fp)), r4)
          else None
        else integer_only
    | EmptyString => integer_only
    end.

(** NonDecimalIntegerLiteral: 0x, 0o, 0b (either case), then at least one
    digit of the radix and nothing else. *)
Definition read_nondecimal (s : string) : option number :=
  match s with
  | String c0 (String c r) =>
      let lit (radix : N) (ok : ascii -> bool) :=
        if truthy r && all_chars ok r
        then Some (Finite false (radix_val radix 0 r) 0) else None in
      if negb (Ascii.eqb c0 "0") then None
      else if (Ascii.eqb c "x" || Ascii.eqb c "X")%bool then lit 16%N is_hex_digit
      else if (Ascii.eqb c "o" || Ascii.eqb c "O")%bool
      then lit 8%N (fun d => is_digit d && negb (Ascii.eqb d "8" || Ascii.eqb d "9"))
      else if (Ascii.eqb c "b" || Ascii.eqb c "B")%bool
      then lit 2%N (fun d => Ascii.eqb d "0" || Ascii.eqb d "1")
      else None
  | _ => None
  end.

(** [Number(s)] for a string: StringToNumber. *)
Definition StringToNumber (s : string) : number :=
  let t := trim s in
  if negb (truthy t) then Finite false 0 0
  else
    match read_nondecimal t with
    | Some n => n
    | None =>
        let '(neg, u) := read_sign t in
        match read_unsigned_decimal neg u with
        | Some (v, EmptyString) => v
        | _ => NaN
        end
    end.

(** The global [isNaN] applied to a string. *)
Definition isNaN (s : string) : bool :=
  match StringToNumber s with NaN => true | _ => false end.

(** The global [parseFloat]: leading white space is skipped, then the
    longest decimal literal is read and what follows is ignored. *)
Definition parseFloat (s : string) : number :=
  let '(neg, u) := read_sign (trimStart s) in
  match read_unsigned_decimal neg u with
  | Some (v, _) => v
  | None => NaN
  end.

(** The global [parseInt] without a radix. *)
Definition parseInt (s : string) : number :=
  let '(neg, u) := read_sign (trimStart s) in
  let hex :=
    match u with
    | String c0 (String c r) =>
        if Ascii.eqb c0 "0" && (Ascii.eqb c "x" || Ascii.eqb c "X")
        then Some r else None
    | _ => None
    end in
  match hex with
  | Some r =>
      let '(ds, _) := span is_hex_digit r in
      if truthy ds then Finite neg (radix_val 16 0 ds) 0 else NaN
  | None =>
      let '(ds, _) := span is_digit u in
      if truthy ds then Finite neg (digits_val ds) 0 else NaN
  end.

(** ToIntegerOrInfinity, as the [Date] constructor applies it to its
    arguments; [None] where the argument is [NaN] or infinite. *)
Definition to_integer (x : number) : option Z :=
  match x with
  | Finite neg m e =>
      let a := (if 0 <=? e then Z.of_N m * 10 ^ e
                else Z.of_N m / 10 ^ (- e))%Z in
      Some (if neg then - a else a)%Z
  | _ => None
  end.

Definition is_negative (x : number) : bool :=
  match x with
  | Finite true (Npos _) _ => true
  | Infinity true => true
  | _ => false
  end.

Definition is_finite (x : number) : bool :=
  match x with Finite _ _ _ => true | _ => false end.

(** [Number.prototype.toString] on an integer, as a template literal
    applies it. *)
Definition N_toString (n : N) : string := NilEmpty.string_of_uint (N.to_uint n).

Definition Z_toString (z : Z) : string :=
  if (z <? 0)%Z then String "-" (N_toString (Z.abs_N z)) else N_toString (Z.abs_N z).

(** ** Strings and arrays of strings *)

(** [s.replace(pat, rep)] with a string pattern: the first occurrence
    only. *)
Fixpoint replace (pat rep s : string) : string :=
  if prefix pat s then rep ++ drop (length pat) s
  else
    match s with
    | EmptyString => EmptyString
    | String c s' => String c (replace pat rep s')
    end.

(** [s.split(sep)] for a separator of one character. *)
Fixpoint split (sep : ascii) (s : string) : list string :=
  match s with
  | EmptyString => [EmptyString]
  | String c s' =>
      if Ascii.eqb c sep then EmptyString :: split sep s'
      else
        match split sep s' with
        | w :: ws => String c w :: ws
        | [] => [String c EmptyString]
        end
  end.

(** [arr.indexOf(x)]; [x] is [None] when it is [undefined], which no
    element of an array of strings equals. *)
Fixpoint indexOf_from (i : Z) (arr : list string) (x : string) : Z :=
  match arr with
  | [] => (-1)%Z
  | y :: arr' => if String.eqb y x then i else indexOf_from (i + 1)%Z arr' x
  end.

Definition indexOf (arr : list string) (x : option string) : Z :=
  match x with
  | Some s => indexOf_from 0 arr s
  | None => (-1)%Z
  end.

(** [arr[i]]: [None] is [undefined]. *)
Definition array_get (arr : list string) (i : option Z) : option string :=
  match i with
  | Some z => if (z <? 0)%Z then None else nth_error arr (Z.to_nat z)
  | None => None
  end.

(** A value inside a template literal. *)
Definition tpl_string (x : option string) : string :=
  match x with Some s => s | None => "undefined" end.

Definition tpl_int (x : option Z) : string :=
  match x with Some z => Z_toString z | None => "NaN" end.

(** ** Date

    A valid [Date] is kept as its local calendar fields and the
    milliseconds elapsed since local midnight; the getters of the source
    read the calendar fields only.  The constructor and the getters of
    the source all work in local time, so no time zone appears.  The limit
    of the time value (about 275,000 years around 1970) is not modelled. *)
Record date_fields : Type := mkDate
  { fullYear : Z; month : Z; date : Z; msInDay : Z }.

Inductive Date : Type :=
| InvalidDate
| ValidDate (f : date_fields).

Definition getFullYear (d : Date) : option Z :=
  match d with ValidDate f => Some (fullYear f) | InvalidDate => None end.
Definition getMonth (d : Date) : option Z :=
  match d with ValidDate f => Some (month f) | InvalidDate => None end.
Definition getDate (d : Date) : option Z :=
  match d with ValidDate f => Some (date f) | InvalidDate => None end.

Definition is_leap (y : Z) : bool :=
  ((y mod 4 =? 0) && (negb (y mod 100 =? 0) || (y mod 400 =? 0)))%Z.

(** Days of month [m] (0 is January) of year [y]. *)
Definition days_in_month (y m : Z) : Z :=
  (if m =? 1 then (if is_leap y then 29 else 28)
   else if (m =? 3) || (m =? 5) || (m =? 8) || (m =? 10) then 30
   else 31)%Z.

(** A day number outside its month moves to the months before or after,
    as MakeDay counts days from the first of the month. *)
Fixpoint carry_days (fuel : nat) (y m d : Z) : Z * Z * Z :=
  match fuel with
  | O => (y, m, d)
  | S fuel' =>
      if (d <? 1)%Z then
        let '(y', m') := if (m =? 0)%Z then (y - 1, 11)%Z else (y, m - 1)%Z in
        carry_days fuel' y' m' (d + days_in_month y' m')%Z
      else if (days_in_month y m <? d)%Z then
        let '(y', m') := if (m =? 11)%Z then (y + 1, 0)%Z else (y, m + 1)%Z in
        carry_days fuel' y' m' (d - days_in_month y m)%Z
      else (y, m, d)
  end.

(** [new Date(year, monthIndex, day)]: the arguments are converted to
    numbers, a year from 0 to 99 is taken in 1900..1999, months outside
    0..11 carry into the year and days outside the month carry into the
    months; the time of day is local midnight. *)
Definition Date_new (year monthIndex day : number) : Date :=
  match to_integer year, to_integer monthIndex, to_integer day with
  | Some y, Some m, Some d =>
      let yr := (if (0 <=? y) && (y <=? 99) then 1900 + y else y)%Z in
      let '(y', m', d') :=
        carry_days (S (Z.to_nat (Z.abs d))) (yr + m / 12)%Z (m mod 12)%Z d in
      ValidDate (mkDate y' m' d' 0)
  | _, _, _ => InvalidDate
  end.

(** [Number(x)] and [parseInt(x)] where [x] may be [undefined]. *)
Definition ToNumber (x : option string) : number :=
  match x with Some s => StringToNumber s | None => NaN end.

Definition parseInt_value (x : option string) : number :=
  match x with Some s => parseInt s | None => NaN end.

End JS.

(* ===================================================================== *)
(** * Asynchronous handlers: state, exceptions and a trace *)
(* ===================================================================== *)

(** Outcome of an awaited promise; the rejection carries the [message]
    of the error. *)
Inductive promise (A : Type) : Type :=
| Resolved (a : A)
| Rejected (message : string).
Arguments Resolved {A} a.
Arguments Rejected {A} message.

Module Async.

Inductive completion (A : Type) : Type :=
| Normal (a : A)
| Throw (message : string).
Arguments Normal {A} a.
Arguments Throw {A} message.

Section Monad.
(** [S]: the state of the component; [E]: the calls it makes. *)
Context {S E : Type}.

Definition M (A : Type) : Type := S -> completion A * S * list E.

Definition ret {A} (a : A) : M A := fun s => (Normal a, s, []).

Definition bind {A B} (m : M A) (k : A -> M B) : M B :=
  fun s =>
    match m s with
    | (Normal a, s1, t1) => let '(r, s2, t2) := k a s1 in (r, s2, t1 ++ t2)
    | (Throw msg, s1, t1) => (Throw msg, s1, t1)
    end.

Definition get : M S := fun s => (Normal s, s, []).
Definition modify (f : S -> S) : M unit := fun s => (Normal tt, f s, []).
Definition emit (e : E) : M unit := fun s => (Normal tt, s, [e]).
Definition throw {A} (msg : string) : M A := fun s => (Throw msg, s, []).

(** [await call]: the call is issued, then the handler resumes with the
    value of the promise or with its rejection thrown. *)
Definition await {A} (call : E) (p : promise A) : M A :=
  bind (emit call)
       (fun _ => match p with
                 | Resolved a => ret a
                 | Rejected msg => throw msg
                 end).

(** [try { body } catch (error) { handler error }] *)
Definition try_catch {A} (body : M A) (handler : string -> M A) : M A :=
  fun s =>
    match body s with
    | (Normal a, s1, t1) => (Normal a, s1, t1)
    | (Throw msg, s1, t1) =>
        let '(r, s2, t2) := handler msg s1 in (r, s2, t1 ++ t2)
    end.

(** [try { body } finally { fin }] *)
Definition try_finally {A} (body : M A) (fin : M unit) : M A :=
  fun s =>
    let '(r, s1, t1) := body s in
    match fin s1 with
    | (Normal _, s2, t2) => (r, s2, t1 ++ t2)
    | (Throw msg, s2, t2) => (Throw msg, s2, t1 ++ t2)
    end.

(** [arr.forEach(f)] and [arr.map(f)] with a callback that has effects. *)
Fixpoint forEach {A} (f : A -> M unit) (arr : list A) : M unit :=
  match arr with
  | [] => ret tt
  | x :: arr' => bind (f x) (fun _ => forEach f arr')
  end.

Fixpoint mapM {A B} (f : A -> M B) (arr : list A) : M (list B) :=
  match arr with
  | [] => ret []
  | x :: arr' =>
      bind (f x) (fun y => bind (mapM f arr') (fun ys => ret (y :: ys)))
  end.
End Monad.

Declare Scope async_scope.
Delimit Scope async_scope with async.
Notation "x <- m ;; k" := (bind m (fun x => k))
  (at level 61, m at next level, right associativity) : async_scope.
Notation "m ;; k" := (bind m (fun _ => k))
  (at level 61, right associativity) : async_scope.

End Async.

(* ===================================================================== *)
(** * HomeScreen: the task list *)
(* ===================================================================== *)

Module HomeScreen.
Import Async.
#[local] Open Scope async_scope.

(** A task as the screen reads it.  [status] is the truth value of the
    completion flag; [category_id] is [None] for [null]: the synthetic
    category "All Tasks" has [id: null]. *)
Record Task : Type := mkTask
  { id : Z;
    title : string;
    description : string;
    due_date : string;
    category_id : option Z;
    status : bool }.

(** [{ ...task, status: s }] *)
Definition with_status (task : Task) (s : bool) : Task :=
  {| id := id task;
     title := title task;
     description := description task;
     due_date := due_date task;
     category_id := category_id task;
     status := s |}.

(** The [useState] cells of the component the handlers touch. *)
Record State : Type := mkState
  { tasks : list Task;
    selectedCategory : option Z;
    isLoading : bool;
    isUpdating : bool }.

(** What the component calls outside itself, and [setTasks]. *)
Inductive Event : Type :=
| ApiGetTasks
| ApiUpdateTaskStatus (taskId : Z) (newStatus : bool)
| ApiDeleteTask (taskId : Z)
| SetTasks (newTasks : list Task)
| ScheduleTaskReminder (task : Task)
| CancelTaskNotification (taskId : Z)
| AlertAlert (heading message : string)
| ConsoleError (label error : string).

(** What an [async] function without a [return] resolves to, next to a
    number. *)
Inductive value : Type :=
| Undefined
| Num (n : Z).

Definition Handler (A : Type) : Type := @M State Event A.

Definition setIsLoading (b : bool) : Handler unit :=
  modify (fun s => {| tasks := tasks s; selectedCategory := selectedCategory s;
                      isLoading := b; isUpdating := isUpdating s |}).

Definition setIsUpdating (b : bool) : Handler unit :=
  modify (fun s => {| tasks := tasks s; selectedCategory := selectedCategory s;
                      isLoading := isLoading s; isUpdating := b |}).

Definition put_tasks (ts : list Task) (s : State) : State :=
  {| tasks := ts; selectedCategory := selectedCategory s;
     isLoading := isLoading s; isUpdating := isUpdating s |}.

(** [setTasks(prevTasks => updater prevTasks)]: the updater runs on the
    tasks the component holds, then the result replaces them. *)
Definition setTasks (updater : list Task -> Handler (list Task)) : Handler unit :=
  s <- get ;;
  newTasks <- updater (tasks s) ;;
  modify (put_tasks newTasks) ;;
  emit (SetTasks newTasks).

(** The notification service.  [scheduleTaskReminder] is called without
    [await]: the handler goes on whatever becomes of the promise. *)
Definition scheduleTaskReminder (task : Task) : Handler unit :=
  emit (ScheduleTaskReminder task).

(** [await cancelTaskNotification(taskId)] *)
Definition cancelTaskNotification (taskId : Z) (outcome : promise unit) : Handler unit :=
  await (CancelTaskNotification taskId) outcome.

Definition Alert_alert (heading message : string) : Handler unit :=
  emit (AlertAlert heading message).

Definition console_error (label error : string) : Handler unit :=
  emit (ConsoleError label error).

(** [fetchTasks]; [remote] is what [api.getTasks()] settles to. *)
Definition fetchTasks (remote : promise (list Task)) : Handler value :=
  setIsLoading true ;;
  try_finally
    (try_catch
       (response <- await ApiGetTasks remote ;;
        setTasks (fun _ => ret response) ;;
        forEach (fun task =>
                   if negb (status task) then scheduleTaskReminder task
                   else ret tt) response)
       (fun error => Alert_alert "Error" "Failed to fetch tasks"))
    (setIsLoading false) ;;
  ret Undefined.

(** [handleToggleStatus]; [remote] is what [api.updateTaskStatus] settles
    to. *)
Definition handleToggleStatus (taskId : Z) (currentStatus : bool)
    (remote : promise unit) : Handler unit :=
  setIsUpdating true ;;
  try_finally
    (try_catch
       (let newStatus := negb currentStatus in
        await (ApiUpdateTaskStatus taskId newStatus) remote ;;
        setTasks (fun prevTasks =>
          mapM (fun task =>
                  if (id task =? taskId)%Z then
                    let updatedTask := with_status task newStatus in
                    scheduleTaskReminder updatedTask ;;
                    ret updatedTask
                  else ret task) prevTasks) ;;
        Alert_alert "Success"
          ("Task marked as " ++ (if newStatus then "completed" else "incomplete")))
       (fun error =>
          Alert_alert "Error" "Failed to update task status" ;;
          console_error "Update status error:" error))
    (setIsUpdating false).

(** The button the user presses in a confirmation dialog, if any. *)
Inductive press : Type := PressCancel | PressDelete | Dismiss.

Definition confirm_text : string := "Are you sure you want to delete this task?".

(** [handleDeleteTask]: the dialog, then the [onPress] of its "Delete"
    button.  [remote] is what [api.deleteTask] settles to and [reminder]
    what [cancelTaskNotification] settles to. *)
Definition handleDeleteTask (taskId : Z) (choice : press)
    (remote reminder : promise unit) : Handler unit :=
  Alert_alert "Delete Task" confirm_text ;;
  match choice with
  | PressDelete =>
      setIsUpdating true ;;
      try_finally
        (try_catch
           (await (ApiDeleteTask taskId) remote ;;
            setTasks (fun prevTasks =>
              ret (filter (fun task => negb (id task =? taskId)%Z) prevTasks)) ;;
            cancelTaskNotification taskId reminder)
           (fun error =>
              Alert_alert "Error" "Failed to delete task" ;;
              console_error "Delete task error:" error))
        (setIsUpdating false)
  | _ => ret tt
  end.

(** [filteredTasks] *)
Definition filteredTasks (tasks : list Task) (selectedCategory : option Z) : list Task :=
  filter (fun task =>
            match selectedCategory with
            | None => true
            | Some c => match category_id task with
                        | Some c' => (c' =? c)%Z
                        | None => false
                        end
            end) tasks.

(** The two sections of the list: "In Progress" and "Completed". *)
Definition inProgress (filteredTasks : list Task) : list Task :=
  filter (fun task => negb (status task)) filteredTasks.

Definition completed (filteredTasks : list Task) : list Task :=
  filter (fun task => status task) filteredTasks.

Definition partitionByCompletion (entities : list Task) : list Task * list Task :=
  (inProgress entities, completed entities).

(** ** TaskCard: the handlers of one card close over its [task] *)
Module TaskCard.
Section Card.
Variable task : Task.

Definition handleStatusChange (remote : promise unit) : Handler unit :=
  setIsUpdating true ;;
  try_finally
    (try_catch
       (await (ApiUpdateTaskStatus (id task) (negb (status task))) remote ;;
        setTasks (fun prevTasks =>
          ret (map (fun t => if (id t =? id task)%Z
                             then with_status t (negb (status task))
                             else t) prevTasks)) ;;
        scheduleTaskReminder (with_status task (negb (status task))))
       (fun error => Alert_alert "Error" "Failed to update task status"))
    (setIsUpdating false).

(** In the filter of [handleDelete] the parameter of the callback is
    named [task] as well and hides the task of the card: the test is
    [task.id !== task.id] on the element. *)
Definition handleDelete (choice : press) (remote reminder : promise unit) : Handler unit :=
  Alert_alert "Delete Task" confirm_text ;;
  match choice with
  | PressDelete =>
      setIsUpdating true ;;
      try_finally
        (try_catch
           (await (ApiDeleteTask (id task)) remote ;;
            setTasks (fun prevTasks =>
              ret (filter (fun task => negb (id task =? id task)%Z) prevTasks)) ;;
            cancelTaskNotification (id task) reminder)
           (fun error => Alert_alert "Error" "Failed to delete task"))
        (setIsUpdating false)
  | _ => ret tt
  end.
End Card.
End TaskCard.

End HomeScreen.

(* ===================================================================== *)
(** * NewExpenseScreen: the expense form *)
(* ===================================================================== *)

Module NewExpenseScreen.
Import Async.
#[local] Open Scope async_scope.

(** The expense handed over by the list when one is edited
    ([route.params?.expense]); [amount] is the text of its amount. *)
Module Expense.
Record t : Type := mk
  { id : Z;
    title : string;
    amount : string;
    category : string;
    expense_date : string }.
End Expense.

(** The object sent to the remote service. *)
Module ExpenseData.
Record t : Type := mk
  { title : string;
    amount : JS.number;
    category : string;
    expense_date : string }.
End ExpenseData.

(** The [useState] cells of the form. *)
Record State : Type := mkState
  { title : string;
    amount : string;
    category : string;
    selectedDate : JS.Date;
    showDatePicker : bool;
    isLoading : bool }.

Inductive Event : Type :=
| ApiCreateExpense (expenseData : ExpenseData.t)
| ApiUpdateExpense (expenseId : Z) (expenseData : ExpenseData.t)
| AlertAlert (heading message : string)
| NavigationGoBack.

Definition Handler (A : Type) : Type := @M State Event A.

Definition months : list string :=
  ["Jan"; "Feb"; "Mar"; "Apr"; "May"; "Jun"; "Jul"; "Aug"; "Sep"; "Oct"; "Nov"; "Dec"].

(** [x || fallback] on strings *)
Definition or_else (x fallback : string) : string :=
  if JS.truthy x then x else fallback.

(** The parser of the [selectedDate] initializer: the date string of the
    backend ("Dec 10, 2024") to a [Date]. *)
Definition parse_expense_date (expense_date : string) : JS.Date :=
  let parts := JS.split " " (JS.replace "," "" expense_date) in
  let month := nth_error parts 0 in
  let day := nth_error parts 1 in
  let year := nth_error parts 2 in
  let monthIndex := JS.indexOf months month in
  JS.Date_new (JS.ToNumber year) (JS.of_Z monthIndex) (JS.parseInt_value day).

(** The initial state; [now] is what [new Date()] gives. *)
Definition initialState (editingExpense : option Expense.t) (now : JS.Date) : State :=
  {| title :=
       match editingExpense with Some e => or_else (Expense.title e) "" | None => "" end;
     amount :=
       match editingExpense with Some e => or_else (Expense.amount e) "" | None => "" end;
     category :=
       match editingExpense with
       | Some e => or_else (Expense.category e) "general"
       | None => "general"
       end;
     selectedDate :=
       match editingExpense with
       | Some e => if JS.truthy (Expense.expense_date e)
                   then parse_expense_date (Expense.expense_date e) else now
       | None => now
       end;
     showDatePicker := false;
     isLoading := false |}.

(** [formatDate] *)
Definition formatDate (date : JS.Date) : string :=
  let month := JS.array_get months (JS.getMonth date) in
  let day := JS.getDate date in
  let year := JS.getFullYear date in
  JS.tpl_string month ++ " " ++ JS.tpl_int day ++ ", " ++ JS.tpl_int year.

Definition setIsLoading (b : bool) : Handler unit :=
  modify (fun s => {| title := title s; amount := amount s; category := category s;
                      selectedDate := selectedDate s;
                      showDatePicker := showDatePicker s; isLoading := b |}).

Definition Alert_alert (heading message : string) : Handler unit :=
  emit (AlertAlert heading message).

(** [handleSave]; [editingExpense] is the route parameter and [remote]
    what [api.createExpense] or [api.updateExpense] settles to. *)
Definition handleSave (editingExpense : option Expense.t) (remote : promise unit) : Handler unit :=
  s <- get ;;
  if negb (JS.truthy (JS.trim (title s))) then
    Alert_alert "Error" "Please enter an expense title"
  else if negb (JS.truthy (JS.trim (amount s))) || JS.isNaN (amount s) then
    Alert_alert "Error" "Please enter a valid amount"
  else
    setIsLoading true ;;
    try_finally
      (try_catch
         (let expenseData :=
            {| ExpenseData.title := title s;
               ExpenseData.amount := JS.parseFloat (amount s);
               ExpenseData.category := category s;
               ExpenseData.expense_date := formatDate (selectedDate s) |} in
          match editingExpense with
          | Some e =>
              await (ApiUpdateExpense (Expense.id e) expenseData) remote ;;
              Alert_alert "Success" "Expense updated successfully"
          | None =>
              await (ApiCreateExpense expenseData) remote ;;
              Alert_alert "Success" "Expense added successfully"
          end ;;
          emit NavigationGoBack)
         (fun error => Alert_alert "Error" (or_else error "Failed to save expense")))
      (setIsLoading false).

End NewExpenseScreen.

(* ===================================================================== *)
(** * Vocabulary of the properties *)
(* ===================================================================== *)

(** [occurs_before p q t]: in the trace [t] an event that satisfies [p]
    comes before an event that satisfies [q]. *)
Fixpoint occurs_before {E : Type} (p q : E -> bool) (t : list E) : bool :=
  match t with
  | [] => false
  | e :: t' => (p e && existsb q t') || occurs_before p q t'
  end.

(** [Subseq l1 l2]: [l1] is [l2] with some elements left out, the others
    in their order. *)
Inductive Subseq {A : Type} : list A -> list A -> Prop :=
| Subseq_nil : Subseq [] []
| Subseq_keep x l1 l2 : Subseq l1 l2 -> Subseq (x :: l1) (x :: l2)
| Subseq_skip x l1 l2 : Subseq l1 l2 -> Subseq l1 (x :: l2).

Module HomeTrace.
Import HomeScreen.

(** A write to the local collection. *)
Definition local_mutation (e : Event) : bool :=
  match e with SetTasks _ => true | _ => false end.

(** A call to the remote service. *)
Definition remote_call (e : Event) : bool :=
  match e with
  | ApiGetTasks | ApiUpdateTaskStatus _ _ | ApiDeleteTask _ => true
  | _ => false
  end.

(** A call to the notification service. *)
Definition reminder_call (e : Event) : bool :=
  match e with
  | ScheduleTaskReminder _ | CancelTaskNotification _ => true
  | _ => false
  end.

(** An error reported to the user. *)
Definition error_alert (e : Event) : bool :=
  match e with
  | AlertAlert heading _ => String.eqb heading "Error"
  | _ => false
  end.

(** The patch of [update(id, {status: s})] on a collection. *)
Definition patch_status (taskId : Z) (s : bool) (ts : list Task) : list Task :=
  map (fun t => if (id t =? taskId)%Z then with_status t s else t) ts.

(** The collection without the entities of identifier [taskId]. *)
Definition without (taskId : Z) (ts : list Task) : list Task :=
  filter (fun t => negb (id t =? taskId)%Z) ts.

Definition result_of {A} (r : Async.completion A * State * list Event) := fst (fst r).
Definition state_of {A} (r : Async.completion A * State * list Event) := snd (fst r).
Definition trace_of {A} (r : Async.completion A * State * list Event) := snd r.

(** The store of the rollback scenario: one task, identifier 5, title
    "X", not completed. *)
Definition task5 : Task := mkTask 5 "X" "" "" None false.
Definition store5 : State := mkState [task5] None false false.

(** A store of two tasks. *)
Definition task1 : Task := mkTask 1 "A" "" "" (Some 10%Z) false.
Definition task2 : Task := mkTask 2 "B" "" "" (Some 20%Z) true.
Definition task3 : Task := mkTask 3 "C" "" "" None false.
Definition store12 : State := mkState [task1; task2] None false false.

End HomeTrace.

Module ExpenseTrace.
Import NewExpenseScreen.

(** A call to the remote service. *)
Definition remote_call (e : Event) : bool :=
  match e with
  | ApiCreateExpense _ | ApiUpdateExpense _ _ => true
  | _ => false
  end.

(** An error reported to the user. *)
Definition error_alert (e : Event) : bool :=
  match e with
  | AlertAlert heading _ => String.eqb heading "Error"
  | _ => false
  end.

Definition result_of {A} (r : Async.completion A * State * list Event) := fst (fst r).
Definition state_of {A} (r : Async.completion A * State * list Event) := snd (fst r).
Definition trace_of {A} (r : Async.completion A * State * list Event) := snd r.

(** The validity of an amount in the words of the specification: the
    text parses as a finite number that is not negative.  The form itself
    tests [isNaN] only. *)
Definition spec_amount_valid (amount : string) : bool :=
  let x := JS.parseFloat amount in
  JS.is_finite x && negb (JS.is_negative x).

(** A calendar day: a month from 0 to 11 and a day of that month. *)
Definition calendar_day (f : JS.date_fields) : Prop :=
  (0 <= JS.month f <= 11 /\ 1 <= JS.date f <= JS.days_in_month (JS.fullYear f) (JS.month f))%Z.

Definition four_digit_year (f : JS.date_fields) : Prop :=
  (1000 <= JS.fullYear f <= 9999)%Z.

(** 10 December 2024, some time after midnight. *)
Definition dec10 : JS.date_fields := JS.mkDate 2024 11 10 4000.

(** A form filled with a title and an amount. *)
Definition form (draft_title draft_amount : string) : State :=
  mkState draft_title draft_amount "general" (JS.ValidDate dec10) false false.

End ExpenseTrace.

(* ===================================================================== *)
(** * HomeScreen: the header and the category bar *)
(* ===================================================================== *)

(** The cells [categories] and [userName] of [HomeScreen] and the
    handlers that use them: [fetchCategories], [loadUserName],
    [handleLogout], [handleEditTask], and the category chips. *)
Module HomeHeader.
Import Async.
#[local] Open Scope async_scope.

(** A category of the bar; [id] is [None] for [null]. *)
Module Category.
Record t : Type := mk
  { id : option Z;
    title : string }.
End Category.

Record State : Type := mkState
  { categories : list Category.t;
    userName : string }.

Inductive Event : Type :=
| ApiGetCategories
| ApiLogout
| AsyncStorageGetItem (key : string)
| NavigationReplace (name : string)
| NavigationNavigate (name : string) (task : HomeScreen.Task) (isEditing : bool)
| AlertAlert (heading message : string)
| ConsoleLog (label error : string).

Definition Handler (A : Type) : Type := @M State Event A.

Definition setCategories (cs : list Category.t) : Handler unit :=
  modify (fun s => {| categories := cs; userName := userName s |}).


Definition Alert_alert (heading message : string) : Handler unit :=
  emit (AlertAlert heading message).

(** The category added in front of the fetched ones. *)
Definition allTasks : Category.t := {| Category.id := None; Category.title := "All Tasks" |}.

(** [fetchCategories]; [remote] is what [api.getCategories()] settles
    to. *)
Definition fetchCategories (remote : promise (list Category.t)) : Handler unit :=
  try_catch
    (response <- await ApiGetCategories remote ;;
     setCategories (allTasks :: response))
    (fun error => Alert_alert "Error" "Failed to fetch categories").


(** [handleLogout]; [remote] is what [api.logout()] settles to. *)
Definition handleLogout (remote : promise unit) : Handler unit :=
  try_catch
    (await ApiLogout remote ;;
     emit (NavigationReplace "Login"))
    (fun error => Alert_alert "Error" "Failed to logout").

(** [handleEditTask] *)
Definition handleEditTask (task : HomeScreen.Task) : Handler unit :=
  emit (NavigationNavigate "NewTask" task true).

(** The [keyExtractor] of the category bar:
    [item.id?.toString() || 'all']. *)
Definition keyExtractor (item : Category.t) : string :=
  match Category.id item with
  | Some z => if JS.truthy (JS.Z_toString z) then JS.Z_toString z else "all"
  | None => "all"
  end.

(** [selectedCategory === item.id]: whether a chip is drawn active. *)
Definition isActive (selectedCategory : option Z) (item : Category.t) : bool :=
  match selectedCategory, Category.id item with
  | None, None => true
  | Some a, Some b => (a =? b)%Z
  | _, _ => false
  end.

(** The [onPress] of a chip: [setSelectedCategory(item.id)]. *)
Definition pressCategory (item : Category.t) : HomeScreen.Handler unit :=
  modify (fun s => {| HomeScreen.tasks := HomeScreen.tasks s;
                      HomeScreen.selectedCategory := Category.id item;
                      HomeScreen.isLoading := HomeScreen.isLoading s;
                      HomeScreen.isUpdating := HomeScreen.isUpdating s |}).

Definition state_of {A} (r : completion A * State * list Event) := snd (fst r).
Definition trace_of {A} (r : completion A * State * list Event) := snd r.
Definition result_of {A} (r : completion A * State * list Event) := fst (fst r).

End HomeHeader.

(* ===================================================================== *)
(** * NewExpenseScreen: the date picker *)
(* ===================================================================== *)

Module ExpensePicker.
Import Async NewExpenseScreen.
#[local] Open Scope async_scope.

Definition setShowDatePicker (b : bool) : Handler unit :=
  modify (fun s => {| title := title s; amount := amount s; category := category s;
                      selectedDate := selectedDate s;
                      showDatePicker := b; isLoading := isLoading s |}).

Definition setSelectedDate (d : JS.Date) : Handler unit :=
  modify (fun s => {| title := title s; amount := amount s; category := category s;
                      selectedDate := d;
                      showDatePicker := showDatePicker s; isLoading := isLoading s |}).

(** [onDateChange]; [platformOS] is [Platform.OS] and [selected] the
    date of the picker, [None] when the picker was dismissed. *)
Definition onDateChange (platformOS : string) (selected : option JS.Date) : Handler unit :=
  setShowDatePicker (String.eqb platformOS "ios") ;;
  match selected with
  | Some d => setSelectedDate d
  | None => ret tt
  end.

(** The object [handleSave] builds from the form. *)
Definition expenseData (s : State) : ExpenseData.t :=
  {| ExpenseData.title := title s;
     ExpenseData.amount := JS.parseFloat (amount s);
     ExpenseData.category := category s;
     ExpenseData.expense_date := formatDate (selectedDate s) |}.

(** The two tests of [handleSave] pass. *)
Definition passes (s : State) : bool :=
  JS.truthy (JS.trim (title s))
  && JS.truthy (JS.trim (amount s)) && negb (JS.isNaN (amount s)).

(** The call [handleSave] makes for a form that passes. *)
Definition save_call (editingExpense : option Expense.t) (s : State) : Event :=
  match editingExpense with
  | Some e => ApiUpdateExpense (Expense.id e) (expenseData s)
  | None => ApiCreateExpense (expenseData s)
  end.

(** An expense as the list would hand it back after a save. *)
Definition saved_as (expenseId : Z) (d : ExpenseData.t) (amountText : string) : Expense.t :=
  {| Expense.id := expenseId;
     Expense.title := ExpenseData.title d;
     Expense.amount := amountText;
     Expense.category := ExpenseData.category d;
     Expense.expense_date := ExpenseData.expense_date d |}.

End ExpensePicker.

Module HomeFrame.
Import HomeScreen HomeTrace.

(** A run that started in [s] has completed normally, has put the flag
    [isUpdating] down and has left the selection and [isLoading] as they
    were. *)
Definition released (s : State) (r : Async.completion unit * State * list Event) : Prop :=
  result_of r = Async.Normal tt
  /\ isUpdating (state_of r) = false
  /\ selectedCategory (state_of r) = selectedCategory s
  /\ isLoading (state_of r) = isLoading s.

(** The section of the list a task of status [b] is shown in. *)
Definition section_of (b : bool) (ts : list Task) : list Task :=
  if b then completed ts else inProgress ts.

End HomeFrame.

(* ===================================================================== *)
(** * HomeScreen: what a run of each handler is *)
(* ===================================================================== *)

Section HomeScreenRuns.
Import Async HomeScreen HomeTrace.

Ltac run_handler :=
  unfold try_finally, try_catch, setTasks, setIsUpdating, setIsLoading,
    cancelTaskNotification, scheduleTaskReminder, Alert_alert, console_error,
    await, bind, ret, get, modify, emit, throw, put_tasks; cbn.

Lemma forEach_reminders_run (f : Task -> Handler unit) (response : list Task) (s : State) :
  (forall task s', f task s' =
     (Normal tt, s', if negb (status task) then [ScheduleTaskReminder task] else [])) ->
  forEach f response s
  = (Normal tt, s,
     map ScheduleTaskReminder (filter (fun task => negb (status task)) response)).
Proof.
  intros Hf. induction response as [|t response IH]; [reflexivity|].
  cbn [forEach filter map]. unfold bind. rewrite Hf, IH.
  destruct (status t); reflexivity.
Qed.

Lemma mapM_toggle_run (f : Task -> Handler Task) (taskId : Z) (newStatus : bool)
    (prevTasks : list Task) (s : State) :
  (forall task s', f task s' =
     if (id task =? taskId)%Z
     then (Normal (with_status task newStatus), s',
           [ScheduleTaskReminder (with_status task newStatus)])
     else (Normal task, s', [])) ->
  mapM f prevTasks s
  = (Normal (patch_status taskId newStatus prevTasks), s,
     map (fun t => ScheduleTaskReminder (with_status t newStatus))
         (filter (fun t => (id t =? taskId)%Z) prevTasks)).
Proof.
  intros Hf. induction prevTasks as [|t prevTasks IH]; [reflexivity|].
  cbn [mapM filter map patch_status]. unfold bind. rewrite Hf.
  destruct (id t =? taskId)%Z; rewrite IH; unfold ret, patch_status; cbn;
    rewrite app_nil_r; reflexivity.
Qed.

Lemma fetchTasks_run (remote : promise (list Task)) (s : State) :
  fetchTasks remote s =
  match remote with
  | Resolved response =>
      (Normal Undefined,
       mkState response (selectedCategory s) false (isUpdating s),
       ApiGetTasks :: SetTasks response ::
         map ScheduleTaskReminder (filter (fun task => negb (status task)) response))
  | Rejected _ =>
      (Normal Undefined,
       mkState (tasks s) (selectedCategory s) false (isUpdating s),
       [ApiGetTasks; AlertAlert "Error" "Failed to fetch tasks"])
  end.
Proof.
  destruct remote as [response|msg]; unfold fetchTasks.
  - run_handler.
    rewrite forEach_reminders_run
      by (intros task s'; destruct (status task); reflexivity).
    cbn. repeat rewrite app_nil_r. reflexivity.
  - run_handler. reflexivity.
Qed.

Lemma handleToggleStatus_run (taskId : Z) (currentStatus : bool)
    (remote : promise unit) (s : State) :
  handleToggleStatus taskId currentStatus remote s =
  match remote with
  | Resolved _ =>
      let newTasks := patch_status taskId (negb currentStatus) (tasks s) in
      (Normal tt,
       mkState newTasks (selectedCategory s) (isLoading s) false,
       ApiUpdateTaskStatus taskId (negb currentStatus) ::
         map (fun t => ScheduleTaskReminder (with_status t (negb currentStatus)))
             (filter (fun t => (id t =? taskId)%Z) (tasks s))
         ++ [SetTasks newTasks;
             AlertAlert "Success"
               ("Task marked as " ++
                (if negb currentStatus then "completed" else "incomplete"))])
  | Rejected msg =>
      (Normal tt,
       mkState (tasks s) (selectedCategory s) (isLoading s) false,
       [ApiUpdateTaskStatus taskId (negb currentStatus);
        AlertAlert "Error" "Failed to update task status";
        ConsoleError "Update status error:" msg])
  end.
Proof.
  destruct remote as [[]|msg]; unfold handleToggleStatus.
  - run_handler.
    rewrite (mapM_toggle_run _ taskId (negb currentStatus))
      by (intros task s'; destruct (id task =? taskId)%Z; reflexivity).
    cbn. repeat rewrite app_nil_r. repeat rewrite <- app_assoc. reflexivity.
  - run_handler. reflexivity.
Qed.

Lemma handleStatusChange_run (task : Task) (remote : promise unit) (s : State) :
  TaskCard.handleStatusChange task remote s =
  match remote with
  | Resolved _ =>
      let newTasks := patch_status (id task) (negb (status task)) (tasks s) in
      (Normal tt,
       mkState newTasks (selectedCategory s) (isLoading s) false,
       [ApiUpdateTaskStatus (id task) (negb (status task));
        SetTasks newTasks;
        ScheduleTaskReminder (with_status task (negb (status task)))])
  | Rejected _ =>
      (Normal tt,
       mkState (tasks s) (selectedCategory s) (isLoading s) false,
       [ApiUpdateTaskStatus (id task) (negb (status task));
        AlertAlert "Error" "Failed to update task status"])
  end.
Proof.
  destruct remote as [[]|msg]; unfold TaskCard.handleStatusChange;
    run_handler; reflexivity.
Qed.

Lemma handleDeleteTask_run (taskId : Z) (remote reminder : promise unit) (s : State) :
  handleDeleteTask taskId PressDelete remote reminder s =
  match remote, reminder with
  | Resolved _, Resolved _ =>
      (Normal tt,
       mkState (without taskId (tasks s)) (selectedCategory s) (isLoading s) false,
       [AlertAlert "Delete Task" confirm_text;
        ApiDeleteTask taskId;
        SetTasks (without taskId (tasks s));
        CancelTaskNotification taskId])
  | Resolved _, Rejected msg =>
      (Normal tt,
       mkState (without taskId (tasks s)) (selectedCategory s) (isLoading s) false,
       [AlertAlert "Delete Task" confirm_text;
        ApiDeleteTask taskId;
        SetTasks (without taskId (tasks s));
        CancelTaskNotification taskId;
        AlertAlert "Error" "Failed to delete task";
        ConsoleError "Delete task error:" msg])
  | Rejected msg, _ =>
      (Normal tt,
       mkState (tasks s) (selectedCategory s) (isLoading s) false,
       [AlertAlert "Delete Task" confirm_text;
        ApiDeleteTask taskId;
        AlertAlert "Error" "Failed to delete task";
        ConsoleError "Delete task error:" msg])
  end.
Proof.
  destruct remote as [[]|msg], reminder as [[]|msg']; unfold handleDeleteTask;
    run_handler; reflexivity.
Qed.

Lemma handleDeleteTask_not_confirmed (taskId : Z) (choice : press)
    (remote reminder : promise unit) (s : State) :
  choice <> PressDelete ->
  handleDeleteTask taskId choice remote reminder s
  = (Normal tt, s, [AlertAlert "Delete Task" confirm_text]).
Proof.
  intros Hc. destruct choice; try congruence; reflexivity.
Qed.

(** The test [task.id !== task.id] of the card holds of no element. *)
Lemma handleDelete_filter_nil (ts : list Task) :
  filter (fun task => negb (id task =? id task)%Z) ts = [].
Proof.
  induction ts as [|t ts IH]; [reflexivity|].
  cbn. rewrite Z.eqb_refl. exact IH.
Qed.

Lemma handleDelete_run (task : Task) (remote reminder : promise unit) (s : State) :
  TaskCard.handleDelete task PressDelete remote reminder s =
  match remote, reminder with
  | Resolved _, Resolved _ =>
      (Normal tt,
       mkState [] (selectedCategory s) (isLoading s) false,
       [AlertAlert "Delete Task" confirm_text;
        ApiDeleteTask (id task);
        SetTasks [];
        CancelTaskNotification (id task)])
  | Resolved _, Rejected _ =>
      (Normal tt,
       mkState [] (selectedCategory s) (isLoading s) false,
       [AlertAlert "Delete Task" confirm_text;
        ApiDeleteTask (id task);
        SetTasks [];
        CancelTaskNotification (id task);
        AlertAlert "Error" "Failed to delete task"])
  | Rejected _, _ =>
      (Normal tt,
       mkState (tasks s) (selectedCategory s) (isLoading s) false,
       [AlertAlert "Delete Task" confirm_text;
        ApiDeleteTask (id task);
        AlertAlert "Error" "Failed to delete task"])
  end.
Proof.
  destruct remote as [[]|msg], reminder as [[]|msg']; unfold TaskCard.handleDelete;
    run_handler; rewrite ?handleDelete_filter_nil; reflexivity.
Qed.

(** ** Traces *)

Lemma occurs_before_app_skip {E : Type} (p q : E -> bool) (l1 l2 : list E) :
  forallb (fun e => negb (p e)) l1 = true ->
  occurs_before p q (l1 ++ l2) = occurs_before p q l2.
Proof.
  induction l1 as [|e l1 IH]; cbn; [reflexivity|].
  intros Hl. apply andb_prop in Hl as [He Hl].
  apply negb_true_iff in He. rewrite He. cbn. auto.
Qed.

Lemma existsb_reminders {A : Type} (p : Event -> bool) (f : A -> Event) (l : list A) :
  (forall a, p (f a) = false) -> existsb p (map f l) = false.
Proof.
  intros Hp. induction l as [|a l IH]; cbn; [reflexivity|].
  rewrite Hp, IH. reflexivity.
Qed.

Lemma forallb_reminders {A : Type} (p : Event -> bool) (f : A -> Event) (l : list A) :
  (forall a, p (f a) = false) -> forallb (fun e => negb (p e)) (map f l) = true.
Proof.
  intros Hp. induction l as [|a l IH]; cbn; [reflexivity|].
  rewrite Hp, IH. reflexivity.
Qed.

(** ** Views *)

Lemma Subseq_filter {A : Type} (f : A -> bool) (l : list A) : Subseq (filter f l) l.
Proof.
  induction l as [|x l IH]; cbn.
  - constructor.
  - destruct (f x); constructor; exact IH.
Qed.

End HomeScreenRuns.

(* ===================================================================== *)
(** * HomeScreen: properties of the handlers and of the views *)
(* ===================================================================== *)

Section HomeScreenProperties.
Import Async HomeScreen HomeTrace.

(** C1, on the rollback scenario of the store (task 5, title "X", not
    completed, the remote update fails): the specification has the patch written
    to the local copy before the remote update is issued.  Neither status
    handler does so: in the failing run the collection is never written,
    and in the successful run the write comes after the remote call. *)
Lemma C1_update_is_not_optimistic :
  let failed := handleToggleStatus 5 false (Rejected "offline") store5 in
  let succeeded := handleToggleStatus 5 false (Resolved tt) store5 in
  let card_failed := TaskCard.handleStatusChange task5 (Rejected "offline") store5 in
  trace_of failed =
    [ApiUpdateTaskStatus 5 true;
     AlertAlert "Error" "Failed to update task status";
     ConsoleError "Update status error:" "offline"]
  /\ occurs_before local_mutation remote_call (trace_of failed) = false
  /\ existsb local_mutation (trace_of failed) = false
  /\ occurs_before local_mutation remote_call (trace_of succeeded) = false
  /\ occurs_before local_mutation remote_call (trace_of card_failed) = false.
Proof. repeat split; reflexivity. Qed.

(** C1, amended: both status handlers issue the remote update first and
    leave the local collection alone until it settles.  When it succeeds
    the patch is applied to the entities of that identifier; when it
    fails the collection is never written, so it is the collection of
    before the call, an error alert is shown, and the handler itself
    completes normally. *)
Theorem C1_update_after_remote_confirmation
    (taskId : Z) (currentStatus : bool) (task : Task)
    (remote : promise unit) (s : State) :
  let r := handleToggleStatus taskId currentStatus remote s in
  let c := TaskCard.handleStatusChange task remote s in
  hd_error (trace_of r) = Some (ApiUpdateTaskStatus taskId (negb currentStatus))
  /\ hd_error (trace_of c) = Some (ApiUpdateTaskStatus (id task) (negb (status task)))
  /\ occurs_before local_mutation remote_call (trace_of r) = false
  /\ occurs_before local_mutation remote_call (trace_of c) = false
  /\ result_of r = Normal tt /\ result_of c = Normal tt
  /\ match remote with
     | Resolved _ =>
         tasks (state_of r) = patch_status taskId (negb currentStatus) (tasks s)
         /\ tasks (state_of c) = patch_status (id task) (negb (status task)) (tasks s)
     | Rejected _ =>
         tasks (state_of r) = tasks s
         /\ tasks (state_of c) = tasks s
         /\ existsb local_mutation (trace_of r) = false
         /\ existsb local_mutation (trace_of c) = false
         /\ existsb error_alert (trace_of r) = true
         /\ existsb error_alert (trace_of c) = true
     end.
Proof.
  cbv zeta. rewrite handleToggleStatus_run, handleStatusChange_run.
  destruct remote as [[]|msg]; cbn; repeat split.
  rewrite occurs_before_app_skip by (apply forallb_reminders; reflexivity).
  reflexivity.
Qed.

(** C2, on the store of task 5 with a remote delete that fails: the
    specification has the entity removed locally before the remote delete is
    issued.  [handleDeleteTask] never writes the collection in that run,
    and in the successful run it writes it after the remote call. *)
Lemma C2_remove_is_not_optimistic :
  let failed := handleDeleteTask 5 PressDelete (Rejected "offline") (Resolved tt) store5 in
  let succeeded := handleDeleteTask 5 PressDelete (Resolved tt) (Resolved tt) store5 in
  trace_of failed =
    [AlertAlert "Delete Task" confirm_text;
     ApiDeleteTask 5;
     AlertAlert "Error" "Failed to delete task";
     ConsoleError "Delete task error:" "offline"]
  /\ occurs_before local_mutation remote_call (trace_of failed) = false
  /\ existsb local_mutation (trace_of failed) = false
  /\ occurs_before local_mutation remote_call (trace_of succeeded) = false.
Proof. repeat split; reflexivity. Qed.

(** C2, amended: once the user confirms, [handleDeleteTask] issues the
    remote delete first.  When it succeeds the entities of that
    identifier are filtered out of the local collection; when it fails
    the collection is never written, so it is the collection of before
    the call, and an error alert is shown. *)
Theorem C2_remove_after_remote_confirmation
    (taskId : Z) (remote reminder : promise unit) (s : State) :
  let r := handleDeleteTask taskId PressDelete remote reminder s in
  occurs_before local_mutation remote_call (trace_of r) = false
  /\ result_of r = Normal tt
  /\ match remote with
     | Resolved _ =>
         tasks (state_of r) = without taskId (tasks s)
         /\ occurs_before remote_call local_mutation (trace_of r) = true
     | Rejected _ =>
         tasks (state_of r) = tasks s
         /\ existsb local_mutation (trace_of r) = false
         /\ existsb error_alert (trace_of r) = true
     end.
Proof.
  cbv zeta. rewrite handleDeleteTask_run.
  destruct remote as [[]|msg], reminder as [[]|msg']; cbn; repeat split.
Qed.

(** The delete handler of the screen removes the entities of the given
    identifier and no other: what stays is the rest of the collection,
    unchanged and in its order. *)
Lemma handleDeleteTask_removes_exactly
    (taskId : Z) (reminder : promise unit) (s : State) :
  let r := handleDeleteTask taskId PressDelete (Resolved tt) reminder s in
  Subseq (tasks (state_of r)) (tasks s)
  /\ forall t, In t (tasks (state_of r)) <-> In t (tasks s) /\ id t <> taskId.
Proof.
  cbv zeta. rewrite handleDeleteTask_run.
  assert (Hw : forall t, In t (without taskId (tasks s)) <-> In t (tasks s) /\ id t <> taskId).
  { intros t. unfold without. rewrite filter_In, negb_true_iff, Z.eqb_neq. tauto. }
  destruct reminder as [[]|msg]; cbn; (split; [apply Subseq_filter | exact Hw]).
Qed.

(** The delete handler of a card empties the collection, whatever it
    holds, when the remote delete succeeds. *)
Lemma handleDelete_empties_collection
    (task : Task) (reminder : promise unit) (s : State) :
  tasks (state_of (TaskCard.handleDelete task PressDelete (Resolved tt) reminder s)) = [].
Proof.
  rewrite handleDelete_run. destruct reminder as [[]|msg]; reflexivity.
Qed.

(** C3, at the store of tasks 1 and 2: the card of task 1 deletes it and
    the remote delete succeeds.  Removing task 1 alone leaves task 2; the
    handler of the card leaves nothing. *)
Theorem C3_card_delete_drops_every_task :
  let r := TaskCard.handleDelete task1 PressDelete (Resolved tt) (Resolved tt) store12 in
  tasks store12 = [task1; task2]
  /\ without (id task1) (tasks store12) = [task2]
  /\ tasks (state_of r) = []
  /\ ~ In task2 (tasks (state_of r)).
Proof. repeat split. intros []. Qed.

(** C5, on the store of task 5 with a remote update that fails: the
    specification has the reminder notified on that run too.  Neither status
    handler calls the notification service there. *)
Lemma C5_no_reminder_when_remote_fails :
  let failed := handleToggleStatus 5 false (Rejected "offline") store5 in
  let card_failed := TaskCard.handleStatusChange task5 (Rejected "offline") store5 in
  In task5 (tasks store5)
  /\ existsb reminder_call (trace_of failed) = false
  /\ existsb reminder_call (trace_of card_failed) = false.
Proof. repeat split. left; reflexivity. Qed.

(** C5, amended: for an entity [t] of the store, the status handlers
    notify the reminder service of the new completion state only once the
    remote update has succeeded, after the remote call; on a run where the
    remote update fails no reminder call is made. *)
Theorem C5_reminder_after_remote_confirmation
    (t : Task) (remote : promise unit) (s : State) :
  In t (tasks s) ->
  let r := handleToggleStatus (id t) (status t) remote s in
  let c := TaskCard.handleStatusChange t remote s in
  occurs_before reminder_call remote_call (trace_of r) = false
  /\ occurs_before reminder_call remote_call (trace_of c) = false
  /\ match remote with
     | Resolved _ =>
         In (ScheduleTaskReminder (with_status t (negb (status t)))) (trace_of r)
         /\ In (ScheduleTaskReminder (with_status t (negb (status t)))) (trace_of c)
     | Rejected _ =>
         existsb reminder_call (trace_of r) = false
         /\ existsb reminder_call (trace_of c) = false
     end.
Proof.
  intros Hin. cbv zeta. rewrite handleToggleStatus_run, handleStatusChange_run.
  destruct remote as [[]|msg]; cbn [trace_of snd]; repeat split; try reflexivity.
  - cbn [occurs_before remote_call reminder_call andb orb].
    induction (filter (fun t0 => (id t0 =? id t)%Z) (tasks s)) as [|x l IH];
      [reflexivity|].
    cbn. rewrite existsb_app, existsb_reminders by reflexivity. exact IH.
  - right. apply in_or_app. left.
    apply (in_map (fun t0 => ScheduleTaskReminder (with_status t0 (negb (status t))))).
    apply filter_In. split; [exact Hin | apply Z.eqb_refl].
  - right. right. left. reflexivity.
Qed.

(** The status handler on task 5 of the store, with a remote update that
    succeeds. *)
Lemma C5_reminder_after_remote_confirmation_witness :
  In task5 (tasks store5)
  /\ In (ScheduleTaskReminder (with_status task5 true))
        (trace_of (handleToggleStatus 5 false (Resolved tt) store5)).
Proof.
  assert (Hin : In task5 (tasks store5)) by (left; reflexivity).
  split; [exact Hin|].
  exact (proj1 (proj2 (proj2
    (C5_reminder_after_remote_confirmation task5 (Resolved tt) store5 Hin)))).
Defined.

(** C6, at a fetch that returns tasks 1 and 2: the specification has [load]
    return the count loaded, here 2.  [fetchTasks] resolves to
    [undefined]. *)
Lemma C6_fetch_returns_no_count :
  let r := fetchTasks (Resolved [task1; task2]) store5 in
  tasks (state_of r) = [task1; task2]
  /\ result_of r = Normal Undefined
  /\ result_of r <> Normal (Num (Z.of_nat (List.length [task1; task2]))).
Proof. repeat split. discriminate. Qed.

(** C6, amended: [fetchTasks] resolves to [undefined] on every run.  On
    success the fetched collection replaces the whole local collection;
    on failure the local collection is never written, so the previous one
    stays, and an error alert is shown. *)
Theorem C6_fetch_replaces_or_keeps
    (remote : promise (list Task)) (s : State) :
  let r := fetchTasks remote s in
  result_of r = Normal Undefined
  /\ match remote with
     | Resolved response => tasks (state_of r) = response
     | Rejected _ =>
         tasks (state_of r) = tasks s
         /\ existsb local_mutation (trace_of r) = false
         /\ existsb error_alert (trace_of r) = true
     end.
Proof.
  cbv zeta. rewrite fetchTasks_run.
  destruct remote as [response|msg]; cbn; repeat split.
Qed.

(** C7: [partitionByCompletion] gives the entities not completed, then
    the completed ones.  Each part keeps the order of the input; the
    parts are told apart by the flag alone; their lengths add up to the
    length of the input; together they hold the entities of the input, as
    many times each, and an entity of the input is in one part and not in
    the other.  On tasks 1 (not completed), 2 (completed), 3 (not
    completed) the parts are 1, 3 and 2. *)
Theorem C7_partitionByCompletion_partitions (entities : list Task) :
  let incomplete := fst (partitionByCompletion entities) in
  let complete := snd (partitionByCompletion entities) in
  Subseq incomplete entities
  /\ Subseq complete entities
  /\ forallb (fun t => negb (status t)) incomplete = true
  /\ forallb status complete = true
  /\ List.length incomplete + List.length complete = List.length entities
  /\ Permutation (incomplete ++ complete) entities
  /\ (forall t, In t entities ->
        (In t incomplete /\ ~ In t complete) \/ (In t complete /\ ~ In t incomplete))
  /\ map id (fst (partitionByCompletion [task1; task2; task3])) = [1; 3]%Z
  /\ map id (snd (partitionByCompletion [task1; task2; task3])) = [2%Z].
Proof.
  cbv zeta. unfold partitionByCompletion, inProgress, completed. cbn [fst snd].
  split; [apply Subseq_filter|]. split; [apply Subseq_filter|].
  split; [apply forallb_filter|]. split; [apply forallb_filter|].
  split.
  { rewrite Nat.add_comm. apply (filter_length status). }
  split.
  { induction entities as [|t l IH]; cbn; [constructor|].
    destruct (status t); cbn.
    - apply Permutation_sym, Permutation_cons_app, Permutation_sym, IH.
    - constructor. exact IH. }
  split; [|split; reflexivity].
  intros t Hin. rewrite !filter_In.
  destruct (status t) eqn:Hs; cbn; [right | left]; (split; [tauto|]);
    intros [_ H]; discriminate.
Qed.

(** C8: with the sentinel [null] selected, [filteredTasks] is the whole
    collection, as it is; with a category selected, it holds the tasks of
    that category and no other, in the order of the collection. *)
Theorem C8_filteredTasks_by_category (ts : list Task) :
  filteredTasks ts None = ts
  /\ List.length (filteredTasks ts None) = List.length ts
  /\ forall c : Z,
       Subseq (filteredTasks ts (Some c)) ts
       /\ forall t, In t (filteredTasks ts (Some c)) <->
                    In t ts /\ category_id t = Some c.
Proof.
  assert (Hall : filteredTasks ts None = ts) by apply filter_true.
  split; [exact Hall|]. split; [rewrite Hall; reflexivity|].
  intros c. split; [apply Subseq_filter|].
  intros t. unfold filteredTasks. rewrite filter_In.
  destruct (category_id t) as [c'|].
  - rewrite Z.eqb_eq. split; intros [H1 H2]; (split; [exact H1|]); congruence.
  - split; intros [H1 H2]; discriminate.
Qed.

(** Whatever becomes of the call to the notification service, the
    delete handlers and the status handlers leave the same collection. *)
Lemma reminder_outcome_keeps_collection
    (taskId : Z) (task : Task) (remote reminder reminder' : promise unit) (s : State) :
  tasks (state_of (handleDeleteTask taskId PressDelete remote reminder s))
  = tasks (state_of (handleDeleteTask taskId PressDelete remote reminder' s))
  /\ tasks (state_of (TaskCard.handleDelete task PressDelete remote reminder s))
     = tasks (state_of (TaskCard.handleDelete task PressDelete remote reminder' s)).
Proof.
  rewrite !handleDeleteTask_run, !handleDelete_run.
  destruct remote as [[]|m], reminder as [[]|m1], reminder' as [[]|m2]; split; reflexivity.
Qed.

(** A rejection of [cancelTaskNotification] after a delete that has
    succeeded is caught by the handler of the remote failure. *)
Lemma reminder_failure_is_alerted (taskId : Z) (msg : string) (s : State) :
  existsb error_alert
    (trace_of (handleDeleteTask taskId PressDelete (Resolved tt) (Rejected msg) s)) = true.
Proof. rewrite handleDeleteTask_run. reflexivity. Qed.

(** C9, at the store of task 5: the remote delete succeeds and the call
    that cancels the notification is rejected.  The task is gone from the
    collection, as in the run where the cancel succeeds, but the user is
    shown "Failed to delete task"; the run where the cancel succeeds
    shows no error.  The handler of the card does the same. *)
Theorem C9_reminder_failure_shown_as_delete_failure :
  let ok := handleDeleteTask 5 PressDelete (Resolved tt) (Resolved tt) store5 in
  let bad := handleDeleteTask 5 PressDelete (Resolved tt) (Rejected "denied") store5 in
  let card_bad :=
    TaskCard.handleDelete task5 PressDelete (Resolved tt) (Rejected "denied") store5 in
  tasks (state_of ok) = [] /\ tasks (state_of bad) = []
  /\ existsb error_alert (trace_of ok) = false
  /\ trace_of bad =
       [AlertAlert "Delete Task" confirm_text;
        ApiDeleteTask 5;
        SetTasks [];
        CancelTaskNotification 5;
        AlertAlert "Error" "Failed to delete task";
        ConsoleError "Delete task error:" "denied"]
  /\ existsb error_alert (trace_of bad) = true
  /\ existsb error_alert (trace_of card_bad) = true.
Proof. repeat split; reflexivity. Qed.

End HomeScreenProperties.

(* ===================================================================== *)
(** * Facts on the built-ins *)
(* ===================================================================== *)

Section BuiltinFacts.
Import JS.
#[local] Open Scope string_scope.

(** What a decimal digit is not. *)
Lemma digit_is_plain (c : ascii) :
  is_digit c = true ->
  is_ws c = false
  /\ Ascii.eqb c "+" = false /\ Ascii.eqb c "-" = false /\ Ascii.eqb c "." = false
  /\ (Ascii.eqb c "x" || Ascii.eqb c "X" = false)%bool
  /\ (Ascii.eqb c "o" || Ascii.eqb c "O" = false)%bool
  /\ (Ascii.eqb c "b" || Ascii.eqb c "B" = false)%bool
  /\ (Ascii.eqb c "e" || Ascii.eqb c "E" = false)%bool
  /\ Ascii.eqb c " " = false /\ c <> ","%char /\ c <> "I"%char.
Proof.
  destruct c as [[] [] [] [] [] [] [] []]; cbn; intros H;
    try discriminate H; repeat split; discriminate.
Qed.

Lemma all_chars_app (p : ascii -> bool) (s1 s2 : string) :
  all_chars p (s1 ++ s2) = all_chars p s1 && all_chars p s2.
Proof.
  induction s1 as [|c s1 IH]; cbn; [reflexivity|].
  rewrite IH. apply andb_assoc.
Qed.

Lemma all_chars_impl (p q : ascii -> bool) (s : string) :
  (forall c, p c = true -> q c = true) ->
  all_chars p s = true -> all_chars q s = true.
Proof.
  intros Hpq. induction s as [|c s IH]; cbn; [reflexivity|].
  intros H. apply andb_prop in H as [Hc Hs].
  rewrite (Hpq c Hc), (IH Hs). reflexivity.
Qed.

Lemma span_all (p : ascii -> bool) (s : string) :
  all_chars p s = true -> span p s = (s, EmptyString).
Proof.
  induction s as [|c s IH]; cbn; [reflexivity|].
  intros H. apply andb_prop in H as [Hc Hs].
  rewrite Hc, (IH Hs). reflexivity.
Qed.

Lemma trim_digits (s : string) : all_chars is_digit s = true -> trim s = s.
Proof.
  intros Hs. unfold trim.
  assert (Hstart : trimStart s = s).
  { destruct s as [|c s]; [reflexivity|]. cbn in *.
    apply andb_prop in Hs as [Hc _].
    destruct (digit_is_plain c Hc) as [-> _]. reflexivity. }
  rewrite Hstart. clear Hstart.
  induction s as [|c s IH]; [reflexivity|]. cbn in *.
  apply andb_prop in Hs as [Hc Hs]. rewrite (IH Hs).
  destruct (digit_is_plain c Hc) as [-> _]. destruct s; reflexivity.
Qed.

Lemma prefix_cons (a b : ascii) (s1 s2 : string) :
  prefix (String a s1) (String b s2) = if ascii_dec a b then prefix s1 s2 else false.
Proof. reflexivity. Qed.

Lemma prefix_nil (s : string) : prefix "" s = true.
Proof. destruct s; reflexivity. Qed.

(** ** Printing a number and reading it back *)

Lemma string_of_uint_digits (u : uint) :
  all_chars is_digit (NilEmpty.string_of_uint u) = true.
Proof. induction u; cbn; auto. Qed.

Lemma N_toString_digits (n : N) : all_chars is_digit (N_toString n) = true.
Proof. apply string_of_uint_digits. Qed.

Lemma N_toString_nonempty (n : N) : truthy (N_toString n) = true.
Proof.
  unfold N_toString. destruct n as [|p]; [reflexivity|]. cbn [N.to_uint].
  pose proof (DecimalPos.Unsigned.to_uint_nonnil p) as Hnil.
  destruct (Pos.to_uint p); [congruence | reflexivity ..].
Qed.

Lemma digits_val_N_toString (n : N) : digits_val (N_toString n) = n.
Proof.
  unfold digits_val, N_toString. rewrite NilEmpty.usu.
  apply DecimalN.Unsigned.of_to.
Qed.

Lemma Z_toString_nonneg (z : Z) : (0 <= z)%Z -> Z_toString z = N_toString (Z.to_N z).
Proof.
  intros Hz. unfold Z_toString.
  destruct (Z.ltb_spec z 0); [lia|]. f_equal. lia.
Qed.

Lemma read_sign_digits (c : ascii) (s : string) :
  is_digit c = true -> read_sign (String c s) = (false, String c s).
Proof.
  intros Hc. destruct (digit_is_plain c Hc) as (_ & Hp & Hm & _).
  cbn. rewrite Hp, Hm. reflexivity.
Qed.

(** [Number(s)] on a run of digits. *)
Lemma StringToNumber_digits (s : string) :
  all_chars is_digit s = true -> truthy s = true ->
  StringToNumber s = Finite false (digits_val s) 0.
Proof.
  intros Hs Hne. unfold StringToNumber. rewrite (trim_digits s Hs), Hne. cbn [negb].
  destruct s as [|c s]; [discriminate|].
  pose proof Hs as Hs'. cbn in Hs'. apply andb_prop in Hs' as [Hc Hrest].
  assert (Hnd : read_nondecimal (String c s) = None).
  { destruct s as [|c' s]; [reflexivity|]. cbn in Hrest.
    apply andb_prop in Hrest as [Hc' _].
    destruct (digit_is_plain c' Hc') as (_ & _ & _ & _ & Hx & Ho & Hb & _).
    cbn. rewrite Hx, Ho, Hb. destruct (negb (Ascii.eqb c "0")); reflexivity. }
  rewrite Hnd, (read_sign_digits c s Hc).
  unfold read_unsigned_decimal.
  assert (Hinf : prefix "Infinity" (String c s) = false).
  { rewrite prefix_cons.
    destruct (ascii_dec "I" c) as [<-|]; [discriminate Hc | reflexivity]. }
  rewrite Hinf, (span_all is_digit _ Hs). reflexivity.
Qed.

(** [parseInt(s)] on a run of digits. *)
Lemma parseInt_digits (s : string) :
  all_chars is_digit s = true -> truthy s = true ->
  parseInt s = Finite false (digits_val s) 0.
Proof.
  intros Hs Hne. unfold parseInt.
  destruct s as [|c s]; [discriminate|].
  pose proof Hs as Hs'. cbn in Hs'. apply andb_prop in Hs' as [Hc Hrest].
  destruct (digit_is_plain c Hc) as (Hws & _).
  cbn [trimStart]. rewrite Hws, (read_sign_digits c s Hc).
  assert (Hhex : match s with
                 | String c' r =>
                     if (Ascii.eqb c "0" && (Ascii.eqb c' "x" || Ascii.eqb c' "X"))%bool
                     then Some r else None
                 | EmptyString => None
                 end = None).
  { destruct s as [|c' s]; [reflexivity|]. cbn in Hrest.
    apply andb_prop in Hrest as [Hc' _].
    destruct (digit_is_plain c' Hc') as (_ & _ & _ & _ & Hx & _).
    rewrite Hx, andb_false_r. reflexivity. }
  rewrite Hhex, (span_all is_digit _ Hs). reflexivity.
Qed.

Lemma to_integer_of_Z (z : Z) : to_integer (of_Z z) = Some z.
Proof.
  unfold to_integer, of_Z. cbn. f_equal.
  destruct (Z.ltb_spec z 0); lia.
Qed.

Lemma to_integer_nat (n : N) : to_integer (Finite false n 0) = Some (Z.of_N n).
Proof. cbn. f_equal. lia. Qed.

(** ** [replace] and [split] around the first separator *)

Lemma replace_first_comma (s1 s2 : string) :
  all_chars (fun c => negb (Ascii.eqb c ",")) s1 = true ->
  replace "," "" (s1 ++ String "," s2) = s1 ++ s2.
Proof.
  induction s1 as [|c s1 IH]; intros H.
  - cbn [append replace]. rewrite prefix_cons, prefix_nil.
    destruct (ascii_dec "," ","); [reflexivity | congruence].
  - cbn in H. apply andb_prop in H as [Hc Hs].
    apply negb_true_iff, Ascii.eqb_neq in Hc.
    cbn [append replace]. rewrite prefix_cons.
    destruct (ascii_dec "," c) as [E|_]; [congruence|].
    rewrite (IH Hs). reflexivity.
Qed.

Lemma split_no_separator (sep : ascii) (s : string) :
  all_chars (fun c => negb (Ascii.eqb c sep)) s = true -> split sep s = [s].
Proof.
  induction s as [|c s IH]; intros H; [reflexivity|].
  cbn in H. apply andb_prop in H as [Hc Hs]. apply negb_true_iff in Hc.
  cbn. rewrite Hc, (IH Hs). reflexivity.
Qed.

Lemma split_first_separator (sep : ascii) (s1 s2 : string) :
  all_chars (fun c => negb (Ascii.eqb c sep)) s1 = true ->
  split sep (s1 ++ String sep s2) = s1 :: split sep s2.
Proof.
  induction s1 as [|c s1 IH]; intros H.
  - cbn. rewrite Ascii.eqb_refl. reflexivity.
  - cbn in H. apply andb_prop in H as [Hc Hs]. apply negb_true_iff in Hc.
    cbn [append split]. rewrite Hc, (IH Hs). reflexivity.
Qed.

Lemma append_assoc (s1 s2 s3 : string) : (s1 ++ s2) ++ s3 = s1 ++ (s2 ++ s3).
Proof. induction s1 as [|c s1 IH]; cbn; [reflexivity | rewrite IH; reflexivity]. Qed.

(** The three fields of a date string "Mon D, YYYY". *)
Lemma split_date_string (mon day year : string) :
  all_chars (fun c => negb (Ascii.eqb c ",") && negb (Ascii.eqb c " ")) mon = true ->
  all_chars is_digit day = true ->
  all_chars is_digit year = true ->
  split " " (replace "," "" (mon ++ " " ++ day ++ ", " ++ year)) = [mon; day; year].
Proof.
  intros Hmon Hday Hyear.
  assert (Hnc : forall s, all_chars is_digit s = true ->
                          all_chars (fun c => negb (Ascii.eqb c ",")) s = true).
  { intros s. apply all_chars_impl. intros c Hc.
    destruct (digit_is_plain c Hc) as (_&_&_&_&_&_&_&_&_& Hcomma &_).
    apply negb_true_iff, Ascii.eqb_neq, Hcomma. }
  assert (Hns : forall s, all_chars is_digit s = true ->
                          all_chars (fun c => negb (Ascii.eqb c " ")) s = true).
  { intros s. apply all_chars_impl. intros c Hc.
    destruct (digit_is_plain c Hc) as (_&_&_&_&_&_&_&_& Hsp &_).
    rewrite Hsp. reflexivity. }
  replace (mon ++ " " ++ day ++ ", " ++ year)
    with ((mon ++ " " ++ day) ++ String "," (" " ++ year))
    by (rewrite !append_assoc; reflexivity).
  rewrite replace_first_comma.
  - rewrite append_assoc. cbn [append]. rewrite split_first_separator.
    + rewrite split_first_separator by auto.
      rewrite split_no_separator by auto. reflexivity.
    + revert Hmon. apply all_chars_impl. intros c H.
      apply andb_prop in H as [_ H]. exact H.
  - rewrite all_chars_app. cbn. rewrite (Hnc day Hday), andb_true_r.
    revert Hmon. apply all_chars_impl. intros c H.
    apply andb_prop in H as [H _]. exact H.
Qed.

(** ** The [Date] constructor on a calendar day *)

Lemma Date_new_calendar_day (y m d : Z) :
  (100 <= y)%Z -> (0 <= m <= 11)%Z -> (1 <= d <= days_in_month y m)%Z ->
  Date_new (Finite false (Z.to_N y) 0) (of_Z m) (Finite false (Z.to_N d) 0)
  = ValidDate (mkDate y m d 0).
Proof.
  intros Hy Hm Hd. unfold Date_new.
  rewrite !to_integer_nat, to_integer_of_Z, !Z2N.id by lia.
  destruct ((0 <=? y)%Z && (y <=? 99)%Z) eqn:Hcentury.
  { apply andb_prop in Hcentury as [_ H]. apply Z.leb_le in H. lia. }
  rewrite Z.div_small, Z.mod_small, Z.add_0_r by lia.
  cbn [carry_days].
  destruct (Z.ltb_spec d 1); [lia|].
  destruct (Z.ltb_spec (days_in_month y m) d); [lia|]. reflexivity.
Qed.

End BuiltinFacts.

(* ===================================================================== *)
(** * NewExpenseScreen: validation and the date string *)
(* ===================================================================== *)

Section NewExpenseProperties.
Import Async NewExpenseScreen ExpenseTrace.
#[local] Open Scope string_scope.

Ltac run_save :=
  unfold handleSave, try_finally, try_catch, setIsLoading, Alert_alert,
    await, bind, ret, get, modify, emit, throw; cbn.

(** The run of [handleSave] on a draft that fails one of its two tests. *)
Lemma handleSave_invalid_run
    (editingExpense : option Expense.t) (remote : promise unit) (s : State) :
  negb (JS.truthy (JS.trim (title s)))
  || (negb (JS.truthy (JS.trim (amount s))) || JS.isNaN (amount s)) = true ->
  handleSave editingExpense remote s
  = (Normal tt, s,
     [AlertAlert "Error"
        (if negb (JS.truthy (JS.trim (title s)))
         then "Please enter an expense title"
         else "Please enter a valid amount")]).
Proof.
  intros Hbad. unfold handleSave, get. unfold bind at 1.
  destruct (negb (JS.truthy (JS.trim (title s)))); [reflexivity|].
  cbn [orb] in Hbad. rewrite Hbad. reflexivity.
Qed.

(** C4, at the draft of title "Lunch" and amount "-5": the amount is a
    negative number, so the specification has the save refused before any remote
    call.  [handleSave] tests [isNaN] only and sends the draft, with the
    amount -5, to the remote service. *)
Lemma C4_negative_amount_reaches_remote :
  let r := handleSave None (Resolved tt) (form "Lunch" "-5") in
  spec_amount_valid "-5" = false
  /\ JS.is_negative (JS.StringToNumber "-5") = true
  /\ trace_of r =
       [ApiCreateExpense (ExpenseData.mk "Lunch" (JS.Finite true 5 0) "general" "Dec 10, 2024");
        AlertAlert "Success" "Expense added successfully";
        NavigationGoBack]
  /\ existsb remote_call (trace_of r) = true
  /\ existsb error_alert (trace_of r) = false.
Proof. repeat split; reflexivity. Qed.

(** C4, amended: when the trimmed title is empty, or the trimmed amount
    is empty, or the amount is not a number ([isNaN]), [handleSave] shows
    one error alert and stops: no remote call is made and the state of
    the form is the state of before. *)
Theorem C4_invalid_draft_stops_before_remote
    (editingExpense : option Expense.t) (remote : promise unit) (s : State) :
  JS.trim (title s) = "" \/ JS.trim (amount s) = ""
    \/ JS.isNaN (amount s) = true ->
  let r := handleSave editingExpense remote s in
  result_of r = Normal tt
  /\ state_of r = s
  /\ existsb remote_call (trace_of r) = false
  /\ existsb error_alert (trace_of r) = true
  /\ List.length (trace_of r) = 1.
Proof.
  intros Hbad. cbv zeta.
  rewrite handleSave_invalid_run; [repeat split|].
  destruct Hbad as [H|[H|H]]; rewrite H; cbn; rewrite ?orb_true_r; reflexivity.
Qed.

(** The draft of empty title and amount "10". *)
Lemma C4_invalid_draft_stops_before_remote_witness :
  JS.trim (title (form "" "10")) = ""
  /\ trace_of (handleSave None (Resolved tt) (form "" "10"))
     = [AlertAlert "Error" "Please enter an expense title"]
  /\ existsb remote_call (trace_of (handleSave None (Resolved tt) (form "" "10"))) = false.
Proof.
  split; [reflexivity|]. split; [reflexivity|].
  exact (proj1 (proj2 (proj2
    (C4_invalid_draft_stops_before_remote None (Resolved tt) (form "" "10")
       (or_introl eq_refl))))).
Defined.

(** A draft that passes the two tests of the form reaches the remote
    service. *)
Lemma handleSave_valid_reaches_remote
    (editingExpense : option Expense.t) (remote : promise unit) (s : State) :
  JS.truthy (JS.trim (title s)) = true ->
  JS.truthy (JS.trim (amount s)) = true ->
  JS.isNaN (amount s) = false ->
  existsb remote_call (trace_of (handleSave editingExpense remote s)) = true.
Proof.
  intros Ht Ha Hn. unfold handleSave, get. unfold bind at 1.
  rewrite Ht, Ha, Hn. cbn [negb orb].
  destruct editingExpense as [e|], remote as [[]|msg]; reflexivity.
Qed.

(** The name of a month has neither a comma nor a space, and it stands
    at its own index in [months]. *)
Lemma month_name (m : Z) :
  (0 <= m <= 11)%Z ->
  let mon := JS.tpl_string (JS.array_get months (Some m)) in
  JS.all_chars (fun c => negb (Ascii.eqb c ",") && negb (Ascii.eqb c " ")) mon = true
  /\ JS.indexOf months (Some mon) = m.
Proof.
  intros Hm.
  assert (Hcases : (m = 0 \/ m = 1 \/ m = 2 \/ m = 3 \/ m = 4 \/ m = 5 \/ m = 6
                    \/ m = 7 \/ m = 8 \/ m = 9 \/ m = 10 \/ m = 11)%Z) by lia.
  repeat (destruct Hcases as [->|Hcases]); try subst m; split; reflexivity.
Qed.

Example formatDate_dec10 : formatDate (JS.ValidDate dec10) = "Dec 10, 2024".
Proof. reflexivity. Qed.

(** The parser on the string [formatDate] prints for a calendar day. *)
Lemma parse_formatDate (f : JS.date_fields) :
  (100 <= JS.fullYear f)%Z -> calendar_day f ->
  parse_expense_date (formatDate (JS.ValidDate f))
  = JS.ValidDate (JS.mkDate (JS.fullYear f) (JS.month f) (JS.date f) 0).
Proof.
  destruct f as [y m d ms]. unfold calendar_day. cbn [JS.fullYear JS.month JS.date].
  intros Hy [Hm Hd].
  destruct (month_name m Hm) as [Hmon Hidx]. cbv zeta in Hmon, Hidx.
  unfold parse_expense_date, formatDate.
  cbn [JS.getMonth JS.getDate JS.getFullYear JS.tpl_int JS.month JS.date JS.fullYear].
  rewrite !Z_toString_nonneg by lia.
  rewrite split_date_string by (auto using N_toString_digits).
  cbn [nth_error]. rewrite Hidx.
  unfold JS.ToNumber, JS.parseInt_value.
  rewrite StringToNumber_digits, parseInt_digits
    by (auto using N_toString_digits, N_toString_nonempty).
  rewrite !digits_val_N_toString.
  apply Date_new_calendar_day; lia.
Qed.

(** The edit screen opened on an expense whose date string was printed by
    [formatDate] starts on that day. *)
Lemma initialState_selectedDate (e : Expense.t) (now : JS.Date) (f : JS.date_fields) :
  (100 <= JS.fullYear f)%Z -> calendar_day f ->
  Expense.expense_date e = formatDate (JS.ValidDate f) ->
  selectedDate (initialState (Some e) now)
  = JS.ValidDate (JS.mkDate (JS.fullYear f) (JS.month f) (JS.date f) 0).
Proof.
  intros Hy Hd He. cbn [initialState selectedDate]. rewrite He.
  rewrite parse_formatDate by assumption.
  assert (Hne : JS.truthy (formatDate (JS.ValidDate f)) = true).
  { destruct Hd as [Hm _]. unfold formatDate. cbn [JS.getMonth].
    assert (Hcases : (JS.month f = 0 \/ JS.month f = 1 \/ JS.month f = 2
                      \/ JS.month f = 3 \/ JS.month f = 4 \/ JS.month f = 5
                      \/ JS.month f = 6 \/ JS.month f = 7 \/ JS.month f = 8
                      \/ JS.month f = 9 \/ JS.month f = 10 \/ JS.month f = 11)%Z) by lia.
    repeat (destruct Hcases as [->|Hcases]); try rewrite Hcases; reflexivity. }
  rewrite Hne. reflexivity.
Qed.

(** C10: for a [Date] on a calendar day of a year of four digits, the
    parser of the edit screen, applied to the string [formatDate] prints
    for it, gives a [Date] of the same year, the same month and the same
    day. *)
Theorem C10_expense_date_round_trip (f : JS.date_fields) :
  four_digit_year f -> calendar_day f ->
  let d := JS.ValidDate f in
  let d' := parse_expense_date (formatDate d) in
  JS.getFullYear d' = JS.getFullYear d
  /\ JS.getMonth d' = JS.getMonth d
  /\ JS.getDate d' = JS.getDate d.
Proof.
  intros Hy Hd. cbv zeta. unfold four_digit_year in Hy.
  rewrite parse_formatDate by (try assumption; lia).
  repeat split.
Qed.

(** The round trip on 10 December 2024. *)
Lemma C10_expense_date_round_trip_witness :
  four_digit_year dec10 /\ calendar_day dec10
  /\ JS.getDate (parse_expense_date (formatDate (JS.ValidDate dec10))) = Some 10%Z.
Proof.
  assert (Hy : four_digit_year dec10) by (unfold four_digit_year; cbn; lia).
  assert (Hd : calendar_day dec10) by (unfold calendar_day; cbn; lia).
  split; [exact Hy|]. split; [exact Hd|].
  exact (proj2 (proj2 (C10_expense_date_round_trip dec10 Hy Hd))).
Defined.

End NewExpenseProperties.


(* ===================================================================== *)
(** * HomeScreen: further properties of the handlers *)
(* ===================================================================== *)

Section HomeScreenFurther.
Import Async HomeScreen HomeTrace HomeFrame.

Lemma filter_map_all {A B : Type} (p : B -> bool) (f : A -> B) (l : list A) :
  (forall a, p (f a) = true) -> filter p (map f l) = map f l.
Proof.
  intros Hp. induction l as [|a l IH]; cbn; [reflexivity|].
  rewrite Hp, IH. reflexivity.
Qed.

Lemma filter_map_none {A B : Type} (p : B -> bool) (f : A -> B) (l : list A) :
  (forall a, p (f a) = false) -> filter p (map f l) = [].
Proof.
  intros Hp. induction l as [|a l IH]; cbn; [reflexivity|].
  rewrite Hp, IH. reflexivity.
Qed.

Lemma filter_comm {A : Type} (f g : A -> bool) (l : list A) :
  filter f (filter g l) = filter g (filter f l).
Proof.
  induction l as [|a l IH]; cbn; [reflexivity|].
  destruct (f a) eqn:Hf, (g a) eqn:Hg; cbn; rewrite ?Hf, ?Hg, IH; reflexivity.
Qed.

(** After a fetch that succeeds, the calls to the notification service
    are the reminders of the fetched tasks that are not completed, one
    each, in the order of the response; a fetch that fails makes none. *)
Theorem fetchTasks_schedules_incomplete
    (response : list Task) (msg : string) (s : State) :
  filter reminder_call (trace_of (fetchTasks (Resolved response) s))
  = map ScheduleTaskReminder (inProgress response)
  /\ filter reminder_call (trace_of (fetchTasks (Rejected msg) s)) = [].
Proof.
  rewrite !fetchTasks_run. cbn. split; [|reflexivity].
  apply filter_map_all. reflexivity.
Qed.

(** Whatever the remote service and the notification service answer,
    the status handlers and the confirmed delete handlers complete
    normally, put [isUpdating] down again and keep the selected category;
    [fetchTasks] puts [isLoading] down again and keeps the selection. *)
Theorem handlers_release_the_screen
    (taskId : Z) (currentStatus : bool) (task : Task)
    (remote reminder : promise unit) (fetched : promise (list Task)) (s : State) :
  released s (handleToggleStatus taskId currentStatus remote s)
  /\ released s (TaskCard.handleStatusChange task remote s)
  /\ released s (handleDeleteTask taskId PressDelete remote reminder s)
  /\ released s (TaskCard.handleDelete task PressDelete remote reminder s)
  /\ result_of (fetchTasks fetched s) = Normal Undefined
  /\ isLoading (state_of (fetchTasks fetched s)) = false
  /\ selectedCategory (state_of (fetchTasks fetched s)) = selectedCategory s
  /\ isUpdating (state_of (fetchTasks fetched s)) = isUpdating s.
Proof.
  unfold released.
  rewrite handleToggleStatus_run, handleStatusChange_run, handleDeleteTask_run,
    handleDelete_run, fetchTasks_run.
  destruct remote as [[]|m], reminder as [[]|m'], fetched as [response|m''];
    cbn; repeat split.
Qed.

(** A delete that the user does not confirm (the dialog is cancelled or
    dismissed) shows the dialog and does nothing else: no remote call, no
    call to the notification service, and the state is the state of
    before. *)
Theorem unconfirmed_delete_does_nothing
    (taskId : Z) (task : Task) (choice : press)
    (remote reminder : promise unit) (s : State) :
  choice <> PressDelete ->
  let r := handleDeleteTask taskId choice remote reminder s in
  let c := TaskCard.handleDelete task choice remote reminder s in
  state_of r = s /\ state_of c = s
  /\ trace_of r = [AlertAlert "Delete Task" confirm_text]
  /\ trace_of c = [AlertAlert "Delete Task" confirm_text]
  /\ existsb remote_call (trace_of r) = false
  /\ existsb remote_call (trace_of c) = false.
Proof.
  intros Hc. destruct choice; try congruence; repeat split.
Qed.

Lemma unconfirmed_delete_does_nothing_witness :
  PressCancel <> PressDelete
  /\ state_of (handleDeleteTask 5 PressCancel (Resolved tt) (Resolved tt) store5) = store5.
Proof.
  assert (Hc : PressCancel <> PressDelete) by discriminate.
  split; [exact Hc|].
  exact (proj1 (unconfirmed_delete_does_nothing 5 task5 PressCancel
                  (Resolved tt) (Resolved tt) store5 Hc)).
Defined.

Lemma patch_status_pointwise (taskId : Z) (b : bool) (ts : list Task) :
  Forall2 (fun t t' => t' = if (id t =? taskId)%Z then with_status t b else t)
          ts (patch_status taskId b ts).
Proof.
  induction ts as [|t ts IH]; cbn; constructor; [reflexivity | exact IH].
Qed.

(** A status update that succeeds keeps the identifiers of the
    collection, in their order, and so its length; each task of another
    identifier is kept as it is, and each task of the identifier is kept
    but for its status, which becomes the new one. *)
Theorem status_update_changes_only_the_status
    (taskId : Z) (currentStatus : bool) (s : State) :
  let ts' := tasks (state_of (handleToggleStatus taskId currentStatus (Resolved tt) s)) in
  map id ts' = map id (tasks s)
  /\ List.length ts' = List.length (tasks s)
  /\ Forall2 (fun t t' =>
                t' = if (id t =? taskId)%Z then with_status t (negb currentStatus) else t)
             (tasks s) ts'.
Proof.
  cbv zeta. rewrite handleToggleStatus_run. cbn [state_of fst snd tasks].
  assert (Hids : map id (patch_status taskId (negb currentStatus) (tasks s))
                 = map id (tasks s)).
  { unfold patch_status. rewrite map_map. apply map_ext.
    intros t. destruct (id t =? taskId)%Z; reflexivity. }
  split; [exact Hids|]. split.
  - unfold patch_status. apply length_map.
  - apply patch_status_pointwise.
Qed.

Lemma with_status_back (t : Task) :
  with_status (with_status t (negb (status t))) (negb (negb (status t))) = t.
Proof. destruct t as [i ti de du ca st]. cbn. rewrite negb_involutive. reflexivity. Qed.

(** Two status updates that succeed, the second called with the status
    the first one set, give back the collection of before, provided the
    first was called with the status the tasks of that identifier have. *)
Theorem toggle_twice_restores_collection
    (taskId : Z) (currentStatus : bool) (s : State) :
  (forall t, In t (tasks s) -> id t = taskId -> status t = currentStatus) ->
  let s1 := state_of (handleToggleStatus taskId currentStatus (Resolved tt) s) in
  let s2 := state_of (handleToggleStatus taskId (negb currentStatus) (Resolved tt) s1) in
  tasks s2 = tasks s.
Proof.
  intros Hcur. cbv zeta. rewrite !handleToggleStatus_run.
  cbn [state_of fst snd tasks]. unfold patch_status. rewrite map_map.
  rewrite <- (map_id (tasks s)) at 2. apply map_ext_in.
  intros t Hin. destruct (id t =? taskId)%Z eqn:Hid.
  - cbn [id with_status]. rewrite Hid.
    apply Z.eqb_eq in Hid. rewrite <- (Hcur t Hin Hid). apply with_status_back.
  - rewrite Hid. reflexivity.
Qed.

Lemma toggle_twice_restores_collection_witness :
  (forall t, In t (tasks store5) -> id t = 5%Z -> status t = false)
  /\ tasks (state_of (handleToggleStatus 5 true (Resolved tt)
             (state_of (handleToggleStatus 5 false (Resolved tt) store5))))
     = [task5].
Proof.
  assert (Hcur : forall t, In t (tasks store5) -> id t = 5%Z -> status t = false).
  { intros t [<-|[]] _. reflexivity. }
  split; [exact Hcur|].
  exact (toggle_twice_restores_collection 5 false store5 Hcur).
Defined.

(** The status handler of the screen, called with the identifier and the
    status of a task, and the status handler of the card of that task
    make the same remote call and leave the same state, whether the
    remote update succeeds or fails. *)
Theorem status_handlers_agree (task : Task) (remote : promise unit) (s : State) :
  let r := handleToggleStatus (id task) (status task) remote s in
  let c := TaskCard.handleStatusChange task remote s in
  state_of r = state_of c
  /\ filter remote_call (trace_of r) = filter remote_call (trace_of c)
  /\ filter remote_call (trace_of r)
     = [ApiUpdateTaskStatus (id task) (negb (status task))].
Proof.
  cbv zeta. rewrite handleToggleStatus_run, handleStatusChange_run.
  destruct remote as [[]|msg]; cbn; repeat split.
  all: rewrite filter_app, filter_map_none by reflexivity; reflexivity.
Qed.

(** A status update that succeeds moves the task to the other section:
    for a task of the store, the updated task is in the section of its
    new status and no task of its identifier is left in the section of
    the old one. *)
Theorem toggle_moves_task_to_other_section (t : Task) (s : State) :
  In t (tasks s) ->
  let ts' := tasks (state_of (TaskCard.handleStatusChange t (Resolved tt) s)) in
  In (with_status t (negb (status t))) (section_of (negb (status t)) ts')
  /\ forall u, In u (section_of (status t) ts') -> id u <> id t.
Proof.
  intros Hin. cbv zeta. rewrite handleStatusChange_run.
  cbn [state_of fst snd tasks]. split.
  - assert (Hmem : In (with_status t (negb (status t)))
                      (patch_status (id t) (negb (status t)) (tasks s))).
    { unfold patch_status.
      apply (in_map (fun t0 => if (id t0 =? id t)%Z
                               then with_status t0 (negb (status t)) else t0)) in Hin.
      rewrite Z.eqb_refl in Hin. exact Hin. }
    unfold section_of, completed, inProgress.
    destruct (status t); cbn [negb]; apply filter_In; (split; [exact Hmem | reflexivity]).
  - intros u Hu Heq.
    assert (Hst : In u (patch_status (id t) (negb (status t)) (tasks s))
                  /\ status u = status t).
    { unfold section_of, completed, inProgress in Hu.
      destruct (status t); apply filter_In in Hu as [H1 H2]; split; try exact H1.
      - exact H2.
      - apply negb_true_iff in H2. exact H2. }
    destruct Hst as [Hu' Hst]. unfold patch_status in Hu'.
    apply in_map_iff in Hu' as (v & Hv & _).
    destruct (id v =? id t)%Z eqn:Hid.
    + subst u. cbn in Hst. destruct (status t); discriminate.
    + subst u. apply Z.eqb_neq in Hid. contradiction.
Qed.

Lemma toggle_moves_task_to_other_section_witness :
  In task5 (tasks store5)
  /\ In (with_status task5 true)
        (completed (tasks (state_of (TaskCard.handleStatusChange task5 (Resolved tt) store5)))).
Proof.
  assert (Hin : In task5 (tasks store5)) by (left; reflexivity).
  split; [exact Hin|].
  exact (proj1 (toggle_moves_task_to_other_section task5 store5 Hin)).
Defined.

Lemma handleDeleteTask_tasks (taskId : Z) (reminder : promise unit) (s : State) :
  tasks (state_of (handleDeleteTask taskId PressDelete (Resolved tt) reminder s))
  = without taskId (tasks s).
Proof. rewrite handleDeleteTask_run. destruct reminder as [[]|msg]; reflexivity. Qed.

(** After a delete of the screen that succeeds, the list shown under any
    selection is the list shown before without the tasks of the deleted
    identifier, and no section shows a task of that identifier. *)
Theorem deleted_task_leaves_every_view
    (taskId : Z) (reminder : promise unit) (selected : option Z) (s : State) :
  let ts' := tasks (state_of (handleDeleteTask taskId PressDelete (Resolved tt) reminder s)) in
  filteredTasks ts' selected = without taskId (filteredTasks (tasks s) selected)
  /\ inProgress (filteredTasks ts' selected)
     = without taskId (inProgress (filteredTasks (tasks s) selected))
  /\ completed (filteredTasks ts' selected)
     = without taskId (completed (filteredTasks (tasks s) selected))
  /\ Forall (fun u => id u <> taskId) (filteredTasks ts' selected).
Proof.
  cbv zeta. rewrite handleDeleteTask_tasks.
  assert (Hview : filteredTasks (without taskId (tasks s)) selected
                  = without taskId (filteredTasks (tasks s) selected)).
  { unfold filteredTasks, without. apply filter_comm. }
  rewrite Hview. unfold inProgress, completed, without.
  split; [reflexivity|]. split; [apply filter_comm|]. split; [apply filter_comm|].
  apply Forall_forall. intros u Hu. apply filter_In in Hu as [_ Hu].
  apply negb_true_iff, Z.eqb_neq in Hu. exact Hu.
Qed.

End HomeScreenFurther.

(* ===================================================================== *)
(** * HomeScreen: the header and the category bar, properties *)
(* ===================================================================== *)

Section HomeHeaderProperties.
Import Async HomeHeader.
#[local] Open Scope string_scope.

Lemma N_toString_inj (a b : N) : JS.N_toString a = JS.N_toString b -> a = b.
Proof.
  intros H. rewrite <- (digits_val_N_toString a), <- (digits_val_N_toString b), H.
  reflexivity.
Qed.

Lemma N_toString_first_digit (n : N) (c : ascii) (r : string) :
  JS.N_toString n = String c r -> JS.is_digit c = true.
Proof.
  intros H. pose proof (N_toString_digits n) as Hd. rewrite H in Hd.
  cbn in Hd. apply andb_prop in Hd as [Hc _]. exact Hc.
Qed.

Lemma Z_toString_inj (a b : Z) : JS.Z_toString a = JS.Z_toString b -> a = b.
Proof.
  unfold JS.Z_toString.
  destruct (Z.ltb_spec a 0) as [Ha|Ha], (Z.ltb_spec b 0) as [Hb|Hb]; intros H.
  - injection H as H. apply N_toString_inj in H. lia.
  - symmetry in H. apply N_toString_first_digit in H. discriminate H.
  - apply N_toString_first_digit in H. discriminate H.
  - apply N_toString_inj in H. lia.
Qed.

Lemma Z_toString_not_all (z : Z) : JS.Z_toString z <> "all".
Proof.
  unfold JS.Z_toString. destruct (z <? 0)%Z; intros H.
  - discriminate H.
  - apply N_toString_first_digit in H. discriminate H.
Qed.

Lemma Z_toString_truthy (z : Z) : JS.truthy (JS.Z_toString z) = true.
Proof.
  unfold JS.Z_toString. destruct (z <? 0)%Z; [reflexivity | apply N_toString_nonempty].
Qed.

(** Two categories get the same key in the bar exactly when they have
    the same identifier; the key "all" is the key of the identifier
    [null] and of no other. *)
Theorem keyExtractor_tells_identifiers_apart (a b : Category.t) :
  (keyExtractor a = keyExtractor b <-> Category.id a = Category.id b)
  /\ (keyExtractor a = "all" <-> Category.id a = None).
Proof.
  unfold keyExtractor.
  destruct (Category.id a) as [x|], (Category.id b) as [y|];
    rewrite ?Z_toString_truthy; split; split; intros H;
    try reflexivity; try discriminate H.
  - f_equal. apply Z_toString_inj, H.
  - injection H as ->. reflexivity.
  - apply Z_toString_not_all in H. contradiction.
  - apply Z_toString_not_all in H. contradiction.
  - apply Z_toString_not_all in H. contradiction.
  - symmetry in H. apply Z_toString_not_all in H. contradiction.
Qed.

(** A fetch of the categories that succeeds puts "All Tasks" in front of
    the fetched categories, whatever the bar held before, so a second
    fetch does not add it twice; a fetch that fails shows an error alert
    and keeps the bar.  The user name is not touched and the handler
    completes normally. *)
Theorem fetchCategories_replaces_or_keeps
    (first second : promise (list Category.t)) (s : State) :
  let s1 := state_of (fetchCategories first s) in
  let r := fetchCategories second s1 in
  result_of r = Normal tt
  /\ userName (state_of r) = userName s
  /\ match second with
     | Resolved response =>
         categories (state_of r) = allTasks :: response
         /\ trace_of r = [ApiGetCategories]
     | Rejected _ =>
         categories (state_of r) = categories s1
         /\ trace_of r = [ApiGetCategories;
                          AlertAlert "Error" "Failed to fetch categories"]
     end.
Proof.
  destruct first as [r1|m1], second as [r2|m2]; cbn; repeat split.
Qed.


(** [handleLogout] leaves the screen for "Login" exactly when the remote
    logout succeeds; when it fails the user stays and is shown an error
    alert.  Nothing is thrown to the caller. *)
Theorem handleLogout_leaves_only_on_success (remote : promise unit) (s : State) :
  let r := handleLogout remote s in
  result_of r = Normal tt
  /\ state_of r = s
  /\ (In (NavigationReplace "Login") (trace_of r) <-> remote = Resolved tt)
  /\ (In (AlertAlert "Error" "Failed to logout") (trace_of r) <-> remote <> Resolved tt).
Proof.
  destruct remote as [[]|msg]; cbn; repeat split; intros H;
    try discriminate; try congruence; auto.
  all: repeat (destruct H as [H|H]); try discriminate H; try contradiction.
Qed.

(** Pressing a chip keeps the tasks and selects the identifier of the
    chip: the chips drawn active are those of that identifier, and the
    list shows every task for the chip of identifier [null] and the tasks
    of the category of the chip otherwise. *)
Theorem pressCategory_selects_its_tasks
    (item other : Category.t) (s : HomeScreen.State) :
  let s' := HomeTrace.state_of (pressCategory item s) in
  let shown := HomeScreen.filteredTasks (HomeScreen.tasks s') (HomeScreen.selectedCategory s') in
  HomeScreen.tasks s' = HomeScreen.tasks s
  /\ (isActive (HomeScreen.selectedCategory s') other = true
      <-> Category.id other = Category.id item)
  /\ (Category.id item = None -> shown = HomeScreen.tasks s)
  /\ forall t, In t shown <->
               In t (HomeScreen.tasks s)
               /\ (Category.id item = None
                   \/ HomeScreen.category_id t = Category.id item).
Proof.
  cbv zeta. cbn. split; [reflexivity|]. split; [|split].
  - unfold isActive. destruct (Category.id item) as [a|], (Category.id other) as [b|];
      split; intros H; try discriminate; try reflexivity.
    + apply Z.eqb_eq in H. congruence.
    + injection H as ->. apply Z.eqb_refl.
  - intros ->. apply filter_true.
  - intros t. unfold HomeScreen.filteredTasks. rewrite filter_In.
    destruct (Category.id item) as [a|].
    + destruct (HomeScreen.category_id t) as [c|].
      * rewrite Z.eqb_eq. split; intros [H1 H2]; (split; [exact H1|]).
        -- right. congruence.
        -- destruct H2 as [H2|H2]; congruence.
      * split; intros [H1 H2]; [discriminate|].
        destruct H2 as [H2|H2]; discriminate.
    + split; intros [H1 _]; (split; [exact H1 | auto]).
Qed.

End HomeHeaderProperties.

(* ===================================================================== *)
(** * Reading a number followed by white space *)
(* ===================================================================== *)

Section ReadingNumbers.
Import JS.
#[local] Open Scope string_scope.

Lemma append_nil_r (s : string) : s ++ "" = s.
Proof. induction s as [|c s IH]; cbn; [reflexivity | rewrite IH; reflexivity]. Qed.


(** A string is what [trimEnd] keeps of it, then white space. *)
Lemma trimEnd_rest (u : string) :
  exists w, u = trimEnd u ++ w /\ all_chars is_ws w = true.
Proof.
  induction u as [|c u (w & Hu & Hw)].
  - exists "". split; reflexivity.
  - cbn [trimEnd]. destruct (trimEnd u) as [|c' r] eqn:Hr.
    + cbn [append] in Hu. subst w. destruct (is_ws c) eqn:Hc.
      * exists (String c u). split; [reflexivity|]. cbn. rewrite Hc. exact Hw.
      * exists u. split; [reflexivity | exact Hw].
    + exists w. split; [|exact Hw]. cbn [append]. f_equal. exact Hu.
Qed.









(** [parseFloat] reads 0 where [Number] reads a literal in base 16, 8
    or 2. *)
Lemma parseFloat_nondecimal (s : string) (n : number) :
  read_nondecimal (trim s) = Some n ->
  parseFloat s = Finite false 0 0 /\ isNaN s = false /\ truthy (trim s) = true.
Proof.
  intros Hnd.
  destruct (trimEnd_rest (trimStart s)) as (w & Hs & Hw). fold (trim s) in Hs.
  destruct (trim s) as [|c0 [|c r]] eqn:Ht; try discriminate Hnd.
  assert (H0 : c0 = "0"%char).
  { cbn in Hnd. destruct (Ascii.eqb c0 "0") eqn:E; [|discriminate Hnd].
    apply Ascii.eqb_eq, E. }
  subst c0.
  assert (Hc : is_digit c = false /\ Ascii.eqb c "." = false
               /\ (Ascii.eqb c "e" || Ascii.eqb c "E")%bool = false).
  { cbn in Hnd.
    destruct c as [[] [] [] [] [] [] [] []]; cbn in Hnd |- *;
      try discriminate Hnd; repeat split. }
  destruct Hc as (Hd & Hdot & He).
  split; [|split; [|reflexivity]].
  - unfold parseFloat. rewrite Hs. cbn [append read_sign].
    cbn [Ascii.eqb Bool.eqb]. unfold read_unsigned_decimal.
    rewrite prefix_cons. destruct (ascii_dec "I" "0"); [discriminate|].
    cbn [span]. replace (is_digit "0") with true by reflexivity.
    rewrite Hd. cbn [truthy]. rewrite Hdot. cbn [read_exponent]. rewrite He.
    reflexivity.
  - unfold isNaN, StringToNumber. rewrite Ht. cbn [truthy negb]. rewrite Hnd.
    cbn in Hnd.
    destruct (Ascii.eqb c "x" || Ascii.eqb c "X")%bool.
    { destruct (truthy r && all_chars is_hex_digit r)%bool; [|discriminate Hnd].
      injection Hnd as <-. reflexivity. }
    destruct (Ascii.eqb c "o" || Ascii.eqb c "O")%bool.
    { destruct (truthy r && _)%bool; [|discriminate Hnd].
      injection Hnd as <-. reflexivity. }
    destruct (Ascii.eqb c "b" || Ascii.eqb c "B")%bool; [|discriminate Hnd].
    destruct (truthy r && _)%bool; [|discriminate Hnd].
    injection Hnd as <-. reflexivity.
Qed.

Lemma all_chars_replace_comma (p : ascii -> bool) (s : string) :
  all_chars p s = true -> all_chars p (replace "," "" s) = true.
Proof.
  induction s as [|c s IH]; intros H.
  - reflexivity.
  - cbn [replace]. rewrite prefix_cons.
    cbn in H. apply andb_prop in H as [Hc Hs].
    destruct (ascii_dec "," c).
    + rewrite prefix_nil. cbn. exact Hs.
    + cbn. rewrite Hc. apply IH, Hs.
Qed.


Lemma is_leap_two_digits (y : Z) :
  (1 <= y <= 99)%Z -> is_leap (1900 + y) = is_leap y.
Proof.
  intros Hy. unfold is_leap.
  replace ((1900 + y) mod 4)%Z with (y mod 4)%Z
    by (replace (1900 + y)%Z with (y + 475 * 4)%Z by lia;
        rewrite Z.mod_add by lia; reflexivity).
  replace ((1900 + y) mod 100)%Z with (y mod 100)%Z
    by (replace (1900 + y)%Z with (y + 19 * 100)%Z by lia;
        rewrite Z.mod_add by lia; reflexivity).
  rewrite (Z.mod_small y 100) by lia.
  destruct (Z.eqb_spec y 0); [lia|]. cbn [negb orb]. reflexivity.
Qed.

End ReadingNumbers.

(* ===================================================================== *)
(** * NewExpenseScreen: further properties of the form *)
(* ===================================================================== *)

Section NewExpenseFurther.
Import Async NewExpenseScreen ExpenseTrace ExpensePicker.
#[local] Open Scope string_scope.

(** The run of [handleSave] on a form that passes its two tests. *)
Lemma handleSave_valid_run
    (editingExpense : option Expense.t) (remote : promise unit) (s : State) :
  passes s = true ->
  handleSave editingExpense remote s =
  match remote with
  | Resolved _ =>
      (Normal tt,
       mkState (title s) (amount s) (category s) (selectedDate s) (showDatePicker s) false,
       [save_call editingExpense s;
        AlertAlert "Success"
          (match editingExpense with
           | Some _ => "Expense updated successfully"
           | None => "Expense added successfully"
           end);
        NavigationGoBack])
  | Rejected msg =>
      (Normal tt,
       mkState (title s) (amount s) (category s) (selectedDate s) (showDatePicker s) false,
       [save_call editingExpense s;
        AlertAlert "Error" (or_else msg "Failed to save expense")])
  end.
Proof.
  unfold passes. intros H.
  apply andb_prop in H as [H Hn]. apply andb_prop in H as [Ht Ha].
  apply negb_true_iff in Hn.
  unfold handleSave, get. unfold bind at 1. rewrite Ht, Ha, Hn. cbn [negb orb].
  destruct editingExpense as [e|], remote as [[]|msg]; reflexivity.
Qed.

Lemma handleSave_rejected_run
    (editingExpense : option Expense.t) (remote : promise unit) (s : State) :
  passes s = false ->
  handleSave editingExpense remote s
  = (Normal tt, s,
     [AlertAlert "Error"
        (if negb (JS.truthy (JS.trim (title s)))
         then "Please enter an expense title"
         else "Please enter a valid amount")]).
Proof.
  intros H. apply handleSave_invalid_run. unfold passes in H.
  destruct (JS.truthy (JS.trim (title s))); [|reflexivity].
  destruct (JS.truthy (JS.trim (amount s))); [|reflexivity].
  destruct (JS.isNaN (amount s)); [reflexivity | discriminate H].
Qed.

Lemma handleSave_calls
    (editingExpense : option Expense.t) (remote : promise unit) (s : State) :
  filter remote_call (trace_of (handleSave editingExpense remote s))
  = if passes s then [save_call editingExpense s] else [].
Proof.
  destruct (passes s) eqn:Hp.
  - rewrite (handleSave_valid_run _ _ _ Hp).
    destruct editingExpense as [e|], remote as [[]|msg]; reflexivity.
  - rewrite (handleSave_rejected_run _ _ _ Hp). reflexivity.
Qed.

(** [handleSave] calls the remote service once when the form passes its
    two tests and never otherwise; it calls [updateExpense] with the
    identifier of the expense being edited when there is one and
    [createExpense] when there is none, with the title and the category
    of the form as typed, the amount read by [parseFloat] and the date
    printed by [formatDate]. *)
Theorem handleSave_makes_one_call
    (editingExpense : option Expense.t) (remote : promise unit) (s : State) :
  filter remote_call (trace_of (handleSave editingExpense remote s))
  = (if passes s
     then [match editingExpense with
           | Some e =>
               ApiUpdateExpense (Expense.id e)
                 (ExpenseData.mk (title s) (JS.parseFloat (amount s)) (category s)
                                 (formatDate (selectedDate s)))
           | None =>
               ApiCreateExpense
                 (ExpenseData.mk (title s) (JS.parseFloat (amount s)) (category s)
                                 (formatDate (selectedDate s)))
           end]
     else []).
Proof.
  rewrite handleSave_calls. destruct (passes s), editingExpense; reflexivity.
Qed.





(** An amount written in base 16, 8 or 2 ("0x1A", "0o17", "0b11") passes
    the test of [handleSave], which reads its value, and is sent to the
    remote service as 0. *)
Theorem nondecimal_amount_is_sent_as_zero
    (editingExpense : option Expense.t) (remote : promise unit) (s : State) (n : JS.number) :
  JS.truthy (JS.trim (title s)) = true ->
  JS.read_nondecimal (JS.trim (amount s)) = Some n ->
  JS.StringToNumber (amount s) = n
  /\ passes s = true
  /\ ExpenseData.amount (expenseData s) = JS.Finite false 0 0
  /\ filter remote_call (trace_of (handleSave editingExpense remote s))
     = [save_call editingExpense s].
Proof.
  intros Ht Hnd. destruct (parseFloat_nondecimal _ _ Hnd) as (Hpf & Hnum & Hne).
  assert (Hp : passes s = true).
  { unfold passes. rewrite Ht, Hne, Hnum. reflexivity. }
  split; [|split; [exact Hp|split; [exact Hpf|]]].
  - unfold JS.StringToNumber. rewrite Hne, Hnd. reflexivity.
  - rewrite (handleSave_valid_run _ _ _ Hp). destruct editingExpense, remote; reflexivity.
Qed.

Lemma nondecimal_amount_is_sent_as_zero_witness :
  JS.truthy (JS.trim (title (form "Taxi" "0x1A"))) = true
  /\ JS.read_nondecimal (JS.trim (amount (form "Taxi" "0x1A"))) = Some (JS.Finite false 26 0)
  /\ ExpenseData.amount (expenseData (form "Taxi" "0x1A")) = JS.Finite false 0 0.
Proof.
  assert (Ht : JS.truthy (JS.trim (title (form "Taxi" "0x1A"))) = true) by reflexivity.
  assert (Hn : JS.read_nondecimal (JS.trim (amount (form "Taxi" "0x1A")))
               = Some (JS.Finite false 26 0)) by reflexivity.
  split; [exact Ht|]. split; [exact Hn|].
  exact (proj1 (proj2 (proj2
    (nondecimal_amount_is_sent_as_zero None (Resolved tt) (form "Taxi" "0x1A") _ Ht Hn)))).
Defined.

(** The date picked in the picker is the date saved: a save that
    follows [onDateChange] with a date calls the remote service, when the
    form passes, with the string [formatDate] prints for that date and the
    other fields of the form as they were; a save that follows a picker
    that was dismissed makes the call of a save without the picker.  The
    picker stays open on iOS only. *)
Theorem picked_date_is_the_date_saved
    (platformOS : string) (d : JS.Date)
    (editingExpense : option Expense.t) (remote : promise unit) (s : State) :
  let picked := state_of (onDateChange platformOS (Some d) s) in
  let dismissed := state_of (onDateChange platformOS None s) in
  filter remote_call (trace_of (handleSave editingExpense remote picked))
  = (if passes s
     then [match editingExpense with
           | Some e =>
               ApiUpdateExpense (Expense.id e)
                 (ExpenseData.mk (title s) (JS.parseFloat (amount s)) (category s)
                                 (formatDate d))
           | None =>
               ApiCreateExpense
                 (ExpenseData.mk (title s) (JS.parseFloat (amount s)) (category s)
                                 (formatDate d))
           end]
     else [])
  /\ filter remote_call (trace_of (handleSave editingExpense remote dismissed))
     = filter remote_call (trace_of (handleSave editingExpense remote s))
  /\ showDatePicker picked = String.eqb platformOS "ios"
  /\ showDatePicker dismissed = String.eqb platformOS "ios".
Proof.
  cbv zeta. rewrite !handleSave_calls. repeat split.
Qed.

(** An expense whose date string has no space (an ISO date, say) opens
    the edit screen on an invalid date, and the date string a save would
    send from there is "undefined NaN, NaN". *)
Theorem date_without_space_opens_invalid (e : Expense.t) (now : JS.Date) :
  JS.truthy (Expense.expense_date e) = true ->
  JS.all_chars (fun c => negb (Ascii.eqb c " ")) (Expense.expense_date e) = true ->
  let s := initialState (Some e) now in
  selectedDate s = JS.InvalidDate
  /\ ExpenseData.expense_date (expenseData s) = "undefined NaN, NaN".
Proof.
  intros Hne Hsp. cbv zeta.
  assert (Hd : selectedDate (initialState (Some e) now) = JS.InvalidDate).
  { cbn [initialState selectedDate]. rewrite Hne. unfold parse_expense_date.
    rewrite split_no_separator by (apply all_chars_replace_comma, Hsp).
    reflexivity. }
  split; [exact Hd|]. cbn [expenseData ExpenseData.expense_date]. rewrite Hd. reflexivity.
Qed.

Lemma date_without_space_opens_invalid_witness :
  let e := Expense.mk 7 "Lunch" "12" "food" "2024-12-10" in
  JS.truthy (Expense.expense_date e) = true
  /\ selectedDate (initialState (Some e) (JS.ValidDate dec10)) = JS.InvalidDate.
Proof.
  cbv zeta.
  split; [reflexivity|].
  exact (proj1 (date_without_space_opens_invalid
                  (Expense.mk 7 "Lunch" "12" "food" "2024-12-10") (JS.ValidDate dec10)
                  eq_refl eq_refl)).
Defined.



(** For a [Date] on a calendar day of a year from 1 to 99, the parser
    applied to the string [formatDate] prints gives the same day and
    month of the year 1900 later. *)
Theorem two_digit_year_reopens_in_1900s (f : JS.date_fields) :
  (1 <= JS.fullYear f <= 99)%Z -> calendar_day f ->
  parse_expense_date (formatDate (JS.ValidDate f))
  = JS.ValidDate (JS.mkDate (1900 + JS.fullYear f) (JS.month f) (JS.date f) 0).
Proof.
  destruct f as [y m d ms]. unfold calendar_day. cbn [JS.fullYear JS.month JS.date].
  intros Hy [Hm Hd].
  destruct (month_name m Hm) as [Hmon Hidx]. cbv zeta in Hmon, Hidx.
  unfold parse_expense_date, formatDate.
  cbn [JS.getMonth JS.getDate JS.getFullYear JS.tpl_int JS.month JS.date JS.fullYear].
  rewrite !Z_toString_nonneg by lia.
  rewrite split_date_string by (auto using N_toString_digits).
  cbn [nth_error]. rewrite Hidx.
  unfold JS.ToNumber, JS.parseInt_value.
  rewrite StringToNumber_digits, parseInt_digits
    by (auto using N_toString_digits, N_toString_nonempty).
  rewrite !digits_val_N_toString.
  unfold JS.Date_new. rewrite !to_integer_nat, to_integer_of_Z, !Z2N.id by lia.
  destruct ((0 <=? y)%Z && (y <=? 99)%Z) eqn:Hcentury.
  2:{ apply andb_false_iff in Hcentury as [H|H]; apply Z.leb_gt in H; lia. }
  rewrite Z.div_small, Z.mod_small, Z.add_0_r by lia.
  assert (Hdim : JS.days_in_month (1900 + y) m = JS.days_in_month y m).
  { unfold JS.days_in_month. rewrite is_leap_two_digits by lia. reflexivity. }
  cbn [JS.carry_days]. rewrite Hdim.
  destruct (Z.ltb_spec d 1); [lia|].
  destruct (Z.ltb_spec (JS.days_in_month y m) d); [lia|]. reflexivity.
Qed.

Lemma two_digit_year_reopens_in_1900s_witness :
  calendar_day (JS.mkDate 24 11 10 0)
  /\ parse_expense_date "Dec 10, 24" = JS.ValidDate (JS.mkDate 1924 11 10 0).
Proof.
  assert (Hy : (1 <= JS.fullYear (JS.mkDate 24 11 10 0) <= 99)%Z) by (cbn; lia).
  assert (Hd : calendar_day (JS.mkDate 24 11 10 0)) by (unfold calendar_day; cbn; lia).
  split; [exact Hd|].
  exact (two_digit_year_reopens_in_1900s (JS.mkDate 24 11 10 0) Hy Hd).
Defined.

(** What is saved reopens on the same day: when the date of the form is
    a calendar day of a year from 100 on, an expense that carries the
    title, the category and the date string [handleSave] sends opens the
    edit screen with that title, that category (when they are not empty)
    and a date of the same year, month and day. *)
Theorem saved_expense_reopens_on_same_day
    (s : State) (f : JS.date_fields) (expenseId : Z) (amountText : string) (now : JS.Date) :
  selectedDate s = JS.ValidDate f ->
  (100 <= JS.fullYear f)%Z -> calendar_day f ->
  let s' := initialState (Some (saved_as expenseId (expenseData s) amountText)) now in
  JS.getFullYear (selectedDate s') = Some (JS.fullYear f)
  /\ JS.getMonth (selectedDate s') = Some (JS.month f)
  /\ JS.getDate (selectedDate s') = Some (JS.date f)
  /\ (JS.truthy (title s) = true -> title s' = title s)
  /\ (JS.truthy (category s) = true -> category s' = category s).
Proof.
  intros Hsel Hy Hd. cbv zeta.
  rewrite (initialState_selectedDate _ now f Hy Hd)
    by (cbn [saved_as Expense.expense_date expenseData ExpenseData.expense_date];
        rewrite Hsel; reflexivity).
  cbn. unfold or_else. repeat split; intros ->; reflexivity.
Qed.

Lemma saved_expense_reopens_on_same_day_witness :
  calendar_day dec10
  /\ JS.getDate (selectedDate (initialState
       (Some (saved_as 7 (expenseData (form "Lunch" "12")) "12")) JS.InvalidDate))
     = Some 10%Z.
Proof.
  assert (Hy : (100 <= JS.fullYear dec10)%Z) by (cbn; lia).
  assert (Hd : calendar_day dec10) by (unfold calendar_day; cbn; lia).
  split; [exact Hd|].
  exact (proj1 (proj2 (proj2
    (saved_expense_reopens_on_same_day (form "Lunch" "12") dec10 7 "12" JS.InvalidDate
       eq_refl Hy Hd)))).
Defined.

End NewExpenseFurther.

(* ===================================================================== *)
(** * HomeScreen: a task that is not in the store *)
(* ===================================================================== *)

Section HomeScreenAbsentTask.
Import Async HomeScreen HomeTrace.






End HomeScreenAbsentTask.
